(** * keycloak-proxy: the authentication and admission pipeline and the
      OAuth flow handlers (middleware.go, handlers.go)

    A shallow embedding of the request path of the proxy.  An [echo.Context]
    is an explicit state that every handler transforms; calls that leave the
    process (identity provider, session store) or that need cryptography or
    the clock are fields of a [World], so a handler is a function of the
    proxy, the world and the context. *)

From Stdlib Require Import ZArith String.
From stdpp Require Import gmap strings list fin_maps.

Set Warnings "-register-all".

Local Open Scope string_scope.
Local Open Scope Z_scope.

(** ** Errors *)

(** Go's [error] values.  The two sentinels are compared with [==] in the
    middleware; every other error is known by its text only. *)
Inductive error : Type :=
  | ErrAccessTokenExpired
  | ErrRefreshTokenExpired
  | ErrorString (msg : string).

Definition error_eqb (a b : error) : bool :=
  match a, b with
  | ErrAccessTokenExpired, ErrAccessTokenExpired => true
  | ErrRefreshTokenExpired, ErrRefreshTokenExpired => true
  | ErrorString x, ErrorString y => String.eqb x y
  | _, _ => false
  end.

(** A Go pair [(value, err)] of which exactly one side is meaningful. *)
Inductive result (A : Type) : Type :=
  | Ok (a : A)
  | Err (e : error).
Arguments Ok {A} a.
Arguments Err {A} e.

(** ** Time *)

(** [time.Time] as nanoseconds since the epoch, [time.Duration] as the
    int64 count of nanoseconds it is in Go. *)
Definition Time : Type := Z.
Definition Duration : Type := Z.

Definition minDuration : Duration := - 2 ^ 63.
Definition maxDuration : Duration := 2 ^ 63 - 1.
Definition Hour : Duration := 3600 * 1000000000.

(** [t.Sub(u)]: the difference, saturated to the range of a Duration. *)
Definition time_Sub (t u : Time) : Duration :=
  if t - u <? minDuration then minDuration
  else if maxDuration <? t - u then maxDuration
  else t - u.

(** [t.Before(u)] *)
Definition time_Before (t u : Time) : bool := t <? u.

(** ** Tokens and identities *)

(** [jose.JWT], kept as its three encoded segments. *)
Record JWT : Type := mkJWT {
  RawHeader : string;
  RawPayload : string;
  Signature : string
}.

(** [token.Encode()] *)
Definition Encode (t : JWT) : string :=
  RawHeader t +:+ "." +:+ RawPayload t +:+ "." +:+ Signature t.

(** A decoded JSON value, as found in [jose.Claims]. *)
Inductive json : Type :=
  | JNull
  | JBool (b : bool)
  | JNumber (literal : string)
  | JString (s : string)
  | JArray (items : list json)
  | JObject (fields : list (string * json)).

(** [claims.StringClaim(name)] of go-oidc: absent gives [("", false, nil)],
    a value that is not a string gives an error. *)
Definition StringClaim (claims : gmap string json) (name : string)
  : result (string * bool) :=
  match claims !! name with
  | None => Ok ("", false)
  | Some (JString v) => Ok (v, true)
  | Some _ => Err (ErrorString ("unable to parse claim as string: " +:+ name))
  end.

(** [oidc.Identity], the projection [parseToken] returns. *)
Record Identity : Type := mkIdentity {
  ID : string;
  Name : string;
  Email : string;
  ExpiresAt : Time
}.

(** [userContext], the identity the middleware attaches to a request. *)
Record userContext : Type := mkUserContext {
  id : string;
  name : string;
  email : string;
  roles : list string;
  audience : list string;
  expiresAt : Time;
  claims : gmap string json;
  token : JWT
}.

(** [user.token = token] *)
Definition set_token (u : userContext) (t : JWT) : userContext :=
  {| id := id u; name := name u; email := email u; roles := roles u;
     audience := audience u; expiresAt := expiresAt u; claims := claims u;
     token := t |}.

(** ** Configuration *)

Record Resource : Type := mkResource {
  URL : string;
  Methods : list string;
  WhiteListed : bool;
  Roles : list string
}.

Record Config : Type := mkConfig {
  ClientID : string;
  RedirectionURL : string;
  EncryptionKey : string;
  Scopes : list string;
  EnableRefreshTokens : bool;
  EnableLoginHandler : bool;
  SkipTokenVerification : bool;
  NoRedirects : bool;
  MatchClaims : gmap string string;
  SignInPage : string;
  Tags : gmap string string
}.

(** The proxy: its configuration and whether a session store is attached. *)
Record oauthProxy : Type := mkProxy {
  config : Config;
  store : option string
}.

(** ** Requests, responses and the echo context *)

Record Request : Type := mkRequest {
  Host : string;
  RequestURI : string;
  Header : gmap string string;
  Query : gmap string string;
  PostForm : gmap string string;
  TLS : bool
}.

(** [Header.Get], [cx.QueryParam], [PostFormValue]: the empty string when
    the key is absent. *)
Definition Header_Get (req : Request) (k : string) : string :=
  default "" (Header req !! k).
Definition QueryParam (req : Request) (k : string) : string :=
  default "" (Query req !! k).
Definition PostFormValue (req : Request) (k : string) : string :=
  default "" (PostForm req !! k).

(** The body of [tokenResponse], the JSON answer of the login handler. *)
Record tokenResponse : Type := mkTokenResponse {
  IDToken : string;
  AccessToken : string;
  RefreshToken : string;
  ExpiresIn : Z;
  Scope : string
}.

Inductive Body : Type :=
  | NoBody
  | JSONBody (t : tokenResponse)
  | TemplateBody (template : string) (model : gmap string string).

Record Response : Type := mkResponse {
  Status : Z;
  Committed : bool;
  Location : string;
  body : Body
}.

(** What a handler does besides writing the response, in the order it is
    done. *)
Inductive Event : Type :=
  | EvDropAccessTokenCookie (value : string) (expires : Duration)
  | EvDropRefreshTokenCookie (value : string) (expires : Duration)
  | EvClearAllCookies
  | EvCodeExchange (code : string)
  | EvRefreshExchange (refresh : string)
  | EvPasswordGrant (username password : string)
  | EvStorePut (key : JWT) (value : string)
  | EvGoStoreUpdate (old new : JWT) (state : string)
  | EvNext.

Record Context : Type := mkContext {
  request : Request;
  user : option userContext;
  response : Response;
  trace : list Event
}.

(** A handler returns with the context it leaves behind, or panics. *)
Inductive outcome : Type :=
  | Returned (cx : Context)
  | Panicked.

Definition HandlerFunc : Type := Context -> outcome.

Definition set_user (cx : Context) (u : userContext) : Context :=
  {| request := request cx; user := Some u;
     response := response cx; trace := trace cx |}.

Definition set_response (cx : Context) (resp : Response) : Context :=
  {| request := request cx; user := user cx;
     response := resp; trace := trace cx |}.

Definition emit (e : Event) (cx : Context) : Context :=
  {| request := request cx; user := user cx;
     response := response cx; trace := trace cx ++ [e] |}.

(** [return next(cx)]: the call is recorded, then the rest of the chain
    runs on the context. *)
Definition invoke (next : HandlerFunc) (cx : Context) : outcome :=
  next (emit EvNext cx).

(** [cx.IsTLS()] *)
Definition IsTLS (cx : Context) : bool := TLS (request cx).

(** echo's [Response.WriteHeader]: the first status written is the one
    sent, a later one is dropped. *)
Definition WriteHeader (code : Z) (resp : Response) : Response :=
  if Committed resp then resp
  else {| Status := code; Committed := true;
          Location := Location resp; body := body resp |}.

Definition Write (b : Body) (resp : Response) : Response :=
  {| Status := Status resp; Committed := Committed resp;
     Location := Location resp; body := b |}.

Definition set_Location (url : string) (resp : Response) : Response :=
  {| Status := Status resp; Committed := Committed resp;
     Location := url; body := body resp |}.

Definition StatusOK : Z := 200.
Definition StatusTemporaryRedirect : Z := 307.
Definition StatusBadRequest : Z := 400.
Definition StatusUnauthorized : Z := 401.
Definition StatusForbidden : Z := 403.
Definition StatusNotAcceptable : Z := 406.
Definition StatusInternalServerError : Z := 500.
Definition StatusNotImplemented : Z := 501.

(** [cx.NoContent(code)] *)
Definition NoContent (code : Z) (cx : Context) : Context :=
  set_response cx (WriteHeader code (response cx)).

(** [cx.Redirect(code, url)] *)
Definition Redirect (code : Z) (url : string) (cx : Context) : Context :=
  set_response cx (WriteHeader code (set_Location url (response cx))).

(** [cx.JSON(code, v)] *)
Definition JSON (code : Z) (v : tokenResponse) (cx : Context) : Context :=
  set_response cx (Write (JSONBody v) (WriteHeader code (response cx))).

(** [cx.Render(code, name, data)] *)
Definition Render (code : Z) (template : string) (model : gmap string string)
    (cx : Context) : Context :=
  set_response cx
    (Write (TemplateBody template model) (WriteHeader code (response cx))).

(** ** The world outside the two source files *)

(** A compiled [*regexp.Regexp], known by what it matches. *)
Definition Regexp : Type := string -> bool.

(** [match.MatchString(value)] *)
Definition MatchString (re : Regexp) (value : string) : bool := re value.

(** An OAuth2 client handle, with the redirect URL it was built for. *)
Inductive Client : Type :=
  | OAuth2Client (redirectURL : string).

(** [oauth2.TokenResponse], what the identity provider answers to a grant. *)
Record TokenResponse : Type := mkOAuth2TokenResponse {
  oauth2_AccessToken : string;
  oauth2_IDToken : string;
  oauth2_RefreshToken : string;
  oauth2_Expires : Z;
  oauth2_Scope : string
}.

(** Everything the handlers call that is not in middleware.go or
    handlers.go and whose answer depends on the network, on keys, on the
    clock or on a library: each is a field, so the theorems hold for every
    behaviour of these collaborators. *)
Record World : Type := mkWorld {
  (** [time.Now()], one instant for the request *)
  time_Now : Time;
  (** [err.Error()] of the two sentinels *)
  sentinel_text : error -> string;
  (** [r.getIdentity(req)]: the session carried by the request *)
  getIdentity : Request -> result userContext;
  (** [verifyToken(r.client, token)]: [None] is Go's nil error *)
  verifyToken : JWT -> option error;
  (** [parseToken(encoded)] *)
  parseToken : string -> result (JWT * Identity);
  (** [r.GetRefreshToken(token)] of the session store *)
  GetRefreshToken : JWT -> result string;
  (** [r.getRefreshTokenFromCookie(req)] *)
  getRefreshTokenFromCookie : Request -> result string;
  (** [encodeText(plain, key)] and [decodeText(cipher, key)] *)
  encodeText : string -> string -> result string;
  decodeText : string -> string -> result string;
  (** [getRefreshedToken(r.client, refresh)]: the refresh exchange *)
  getRefreshedToken : string -> result (JWT * Time);
  (** [r.getAccessCookieExpiration(token, refresh)] *)
  getAccessCookieExpiration : JWT -> string -> Duration;
  (** [r.getOAuthClient(redirectionURL)] and [r.client.OAuthClient()] *)
  getOAuthClient : string -> result Client;
  OAuthClient : result Client;
  (** [exchangeAuthenticationCode(client, code)] *)
  exchangeAuthenticationCode : Client -> string -> result TokenResponse;
  (** [client.AuthCodeURL(state, accessType, prompt)] *)
  AuthCodeURL : Client -> string -> string -> string -> string;
  (** [client.UserCredsToken(username, password)] *)
  UserCredsToken : Client -> string -> string -> result TokenResponse;
  (** [base64.StdEncoding.DecodeString] and [EncodeToString] *)
  base64_DecodeString : string -> result string;
  (** [path.Base] *)
  path_Base : string -> string;
  (** [regexp.Compile]: [None] when the expression is not valid, which is
      where [regexp.MustCompile] panics *)
  regexp_Compile : string -> option Regexp;
  (** the order in which a [for ... range] visits the compiled claim
      matchers on this request *)
  range_claimMatches : gmap string Regexp -> list (string * Regexp)
}.

(** [err.Error()] *)
Definition Error (w : World) (e : error) : string :=
  match e with
  | ErrorString msg => msg
  | _ => sentinel_text w e
  end.

(** Go leaves the iteration order of a map unspecified: any order that
    visits every entry once is a possible one. *)
Definition range_order_ok (w : World) : Prop :=
  forall m : gmap string Regexp, range_claimMatches w m ≡ₚ map_to_list m.

(** ** Helpers of the package that live outside the two source files *)

(** Modelled from the spec: the constant [oauthURL] is declared elsewhere
    in the package; section 6: "prefixes mounted under a configurable OAuth
    base, default /oauth". *)
Definition oauthURL : string := "/oauth".

(** Modelled from the spec: the constant [authorizationURL] is declared
    elsewhere in the package; section 6 lists the path "/authorize". *)
Definition authorizationURL : string := "/authorize".

(** Modelled from the spec: [redirectToURL] is not in the source files
    given; section 7 has every redirect of the proxy as a 307. *)
Definition redirectToURL (url : string) (cx : Context) : Context :=
  Redirect StatusTemporaryRedirect url cx.

(** Modelled from the spec: the redirect that both denial helpers share,
    section 7: "a 307 redirect to /oauth/authorize?state=<current-url>". *)
Definition authorizeRedirect (cx : Context) : Context :=
  redirectToURL
    (oauthURL +:+ authorizationURL +:+ "?state=" +:+ RequestURI (request cx))
    cx.

(** Modelled from the spec: [redirectToAuthorization] is not in the source
    files given; section 7: "either a 307 redirect to
    /oauth/authorize?state=<current-url> or a 401 if NoRedirects". *)
Definition redirectToAuthorization (r : oauthProxy) (cx : Context) : Context :=
  if NoRedirects (config r) then NoContent StatusUnauthorized cx
  else authorizeRedirect cx.

(** Modelled from the spec: [accessForbidden] is not in the source files
    given; section 4.6: "either redirect to the authorize endpoint (default)
    or return 403 when NoRedirects is set". *)
Definition accessForbidden (r : oauthProxy) (cx : Context) : Context :=
  if NoRedirects (config r) then NoContent StatusForbidden cx
  else authorizeRedirect cx.

(** Modelled from the spec: [containedIn] is not in the source files given;
    it tells whether a string is one of a list ("if offline is a configured
    scope"). *)
Definition containedIn (value : string) (l : list string) : bool :=
  existsb (String.eqb value) l.

(** Modelled from the spec: [hasRoles] is not in the source files given;
    section 4.6: "the identity's roles must contain all of them (AND
    semantics)". *)
Definition hasRoles (required issued : list string) : bool :=
  forallb (fun role => containedIn role issued) required.

(** Modelled from the spec: [isAudience] is not in the source files given;
    section 4.6: "the identity's audience set does not contain it -> deny". *)
Definition isAudience (u : userContext) (aud : string) : bool :=
  containedIn aud (audience u).

(** Modelled from the spec: [isExpired] is not in the source files given;
    the identity's expiry is in the past. *)
Definition isExpired (w : World) (u : userContext) : bool :=
  time_Before (expiresAt u) (time_Now w).

(** Modelled from the spec: [defaultTo] is not in the source files given;
    section 6: the forwarded header "if present, else" the fallback. *)
Definition defaultTo (v def : string) : string :=
  if String.eqb v "" then def else v.

(** Modelled from the spec: [useStore] is not in the source files given;
    the session store is optional (section 4.3). *)
Definition useStore (r : oauthProxy) : bool :=
  match store r with Some _ => true | None => false end.

(** Modelled from the spec: [hasCustomSignInPage] is not in the source
    files given; "a templated sign-in page if configured". *)
Definition hasCustomSignInPage (c : Config) : bool :=
  negb (String.eqb (SignInPage c) "").

(** Modelled from the spec: [mergeMaps] is not in the source files given;
    the model of the sign-in page is the redirect together with the
    configured tags. *)
Definition mergeMaps (dest source : gmap string string) : gmap string string :=
  source ∪ dest.

(** Modelled from the spec: [dropAccessTokenCookie] is not in the source
    files given; section 4.2: it sets the access cookie with the value and
    the max-age it is called with.  The call is recorded with both. *)
Definition dropAccessTokenCookie (value : string) (expires : Duration)
    (cx : Context) : Context :=
  emit (EvDropAccessTokenCookie value expires) cx.

(** Modelled from the spec: [dropRefreshTokenCookie] is not in the source
    files given; section 4.2: it sets the refresh cookie with the value and
    the max-age it is called with.  The call is recorded with both. *)
Definition dropRefreshTokenCookie (value : string) (expires : Duration)
    (cx : Context) : Context :=
  emit (EvDropRefreshTokenCookie value expires) cx.

(** Modelled from the spec: [clearAllCookies] is not in the source files
    given; section 4.2: "sets both cookies with zero max-age and empty
    value".  The call is recorded. *)
Definition clearAllCookies (cx : Context) : Context :=
  emit EvClearAllCookies cx.

(** ** handlers.go *)

(** [retrieveRefreshToken]: the refresh token from the store or from the
    cookie, decrypted. *)
Definition retrieveRefreshToken (r : oauthProxy) (w : World) (req : Request)
    (u : userContext) : result string :=
  let found :=
    if useStore r then GetRefreshToken w (token u)
    else getRefreshTokenFromCookie w req in
  match found with
  | Err err => Err err
  | Ok tok => decodeText w tok (EncryptionKey (config r))
  end.

(** [getRedirectionURL] *)
Definition getRedirectionURL (r : oauthProxy) (cx : Context) : string :=
  let redirect :=
    if String.eqb (RedirectionURL (config r)) "" then
      let scheme := "http" in
      let scheme := if negb (IsTLS cx) then "https" else scheme in
      defaultTo (Header_Get (request cx) "X-Forwarded-Proto") scheme
        +:+ "://" +:+
      defaultTo (Header_Get (request cx) "X-Forwarded-Host") (Host (request cx))
    else RedirectionURL (config r) in
  redirect +:+ "/oauth/callback".

(** ** middleware.go *)

(** [authenticationMiddleware] *)
Definition authenticationMiddleware (r : oauthProxy) (w : World)
    (resource : Resource) (next : HandlerFunc) : HandlerFunc := fun cx =>
  match getIdentity w (request cx) with
  | Err _ => Returned (redirectToAuthorization r cx)
  | Ok u =>
    let cx := set_user cx u in
    if SkipTokenVerification (config r) then
      if isExpired w u then Returned (redirectToAuthorization r cx)
      else invoke next cx
    else
      match verifyToken w (token u) with
      | None => invoke next cx
      | Some err =>
        if negb (error_eqb err ErrAccessTokenExpired) then
          Returned (accessForbidden r cx)
        else if negb (EnableRefreshTokens (config r)) then
          Returned (redirectToAuthorization r cx)
        else
          match retrieveRefreshToken r w (request cx) u with
          | Err _ => Returned (redirectToAuthorization r cx)
          | Ok refresh =>
            let cx := emit (EvRefreshExchange refresh) cx in
            match getRefreshedToken w refresh with
            | Err err =>
              let cx :=
                match err with
                | ErrRefreshTokenExpired => clearAllCookies cx
                | _ => cx
                end in
              Returned (redirectToAuthorization r cx)
            | Ok (tok, _) =>
              let expiresIn := getAccessCookieExpiration w tok refresh in
              let cx := dropAccessTokenCookie (Encode tok) expiresIn cx in
              let cx :=
                if useStore r
                then emit (EvGoStoreUpdate (token u) tok refresh) cx
                else cx in
              let u := set_token u tok in
              let cx := set_user cx u in
              invoke next cx
            end
          end
      end
  end.

(** The [claimMatches] map that [admissionMiddleware] builds once:
    [regexp.MustCompile] of every configured expression, a panic when one
    does not compile. *)
Definition claimMatches (r : oauthProxy) (w : World)
  : option (gmap string Regexp) :=
  if decide (map_Forall (fun _ v => is_Some (regexp_Compile w v))
               (MatchClaims (config r)))
  then Some (omap (regexp_Compile w) (MatchClaims (config r)))
  else None.

(** The loop over the claim matchers; [Some] is the early return. *)
Fixpoint rangeClaimMatches (r : oauthProxy) (u : userContext) (cx : Context)
    (ms : list (string * Regexp)) : option Context :=
  match ms with
  | [] => None
  | (claimName, re) :: rest =>
    match StringClaim (claims u) claimName with
    | Err _ => Some (accessForbidden r cx)
    | Ok (value, found) =>
      if negb found then Some (accessForbidden r cx)
      else if negb (MatchString re value) then Some (accessForbidden r cx)
      else rangeClaimMatches r u cx rest
    end
  end.

(** The handler [admissionMiddleware] returns, over the compiled matchers. *)
Definition admissionHandler (r : oauthProxy) (w : World) (resource : Resource)
    (matchers : gmap string Regexp) (next : HandlerFunc) : HandlerFunc :=
  fun cx =>
  match user cx with
  | None => Panicked
  | Some u =>
    if negb (String.eqb (ClientID (config r)) "")
       && negb (isAudience u (ClientID (config r)))
    then Returned (accessForbidden r cx)
    else if (0 <? Z.of_nat (length (Roles resource)))
            && negb (hasRoles (Roles resource) (roles u))
    then Returned (accessForbidden r cx)
    else
      match rangeClaimMatches r u cx (range_claimMatches w matchers) with
      | Some denied => Returned denied
      | None => invoke next cx
      end
  end.

(** [admissionMiddleware]: building the middleware compiles the claim
    expressions; [None] is the panic of [regexp.MustCompile], after which
    there is no handler. *)
Definition admissionMiddleware (r : oauthProxy) (w : World)
    (resource : Resource) : option (HandlerFunc -> HandlerFunc) :=
  match claimMatches r w with
  | None => None
  | Some matchers => Some (admissionHandler r w resource matchers)
  end.

(** ** handlers.go, the flow handlers *)

(** [oauthAuthorizationHandler] *)
Definition oauthAuthorizationHandler (r : oauthProxy) (w : World)
    (cx : Context) : Context :=
  if SkipTokenVerification (config r) then NoContent StatusNotAcceptable cx
  else
    match getOAuthClient w (getRedirectionURL r cx) with
    | Err _ => NoContent StatusInternalServerError cx
    | Ok client =>
      let accessType :=
        if containedIn "offline" (Scopes (config r)) then "offline" else "" in
      let authURL :=
        AuthCodeURL w client (QueryParam (request cx) "state") accessType "" in
      if hasCustomSignInPage (config r) then
        Render StatusOK (path_Base w (SignInPage (config r)))
          (mergeMaps {[ "redirect" := authURL ]} (Tags (config r))) cx
      else redirectToURL authURL cx
    end.

(** The end of [oauthCallbackHandler]: decode the state parameter and
    redirect to it, to "/" when it is absent or does not decode. *)
Definition callbackRedirect (w : World) (cx : Context) : Context :=
  let state := "/" in
  let state :=
    if negb (String.eqb (QueryParam (request cx) "state") "") then
      match base64_DecodeString w (QueryParam (request cx) "state") with
      | Err _ => state
      | Ok decoded => decoded
      end
    else state in
  redirectToURL state cx.

(** [oauthCallbackHandler] *)
Definition oauthCallbackHandler (r : oauthProxy) (w : World)
    (cx : Context) : Context :=
  if SkipTokenVerification (config r) then NoContent StatusNotAcceptable cx
  else
    let code := QueryParam (request cx) "code" in
    if String.eqb code "" then NoContent StatusBadRequest cx
    else
      match getOAuthClient w (getRedirectionURL r cx) with
      | Err _ => NoContent StatusInternalServerError cx
      | Ok client =>
        let cx := emit (EvCodeExchange code) cx in
        match exchangeAuthenticationCode w client code with
        | Err _ => accessForbidden r cx
        | Ok resp =>
          match parseToken w (oauth2_IDToken resp) with
          | Err _ => accessForbidden r cx
          | Ok (tok, idt) =>
            match verifyToken w tok with
            | Some _ => accessForbidden r cx
            | None =>
              let '(tok, idt) :=
                match parseToken w (oauth2_AccessToken resp) with
                | Err _ => (tok, idt)
                | Ok (access, id) => (access, id)
                end in
              if EnableRefreshTokens (config r)
                 && negb (String.eqb (oauth2_RefreshToken resp) "")
              then
                match encodeText w (oauth2_RefreshToken resp)
                        (EncryptionKey (config r)) with
                | Err _ => NoContent StatusInternalServerError cx
                | Ok encrypted =>
                  let cx :=
                    dropAccessTokenCookie (Encode tok)
                      (getAccessCookieExpiration w tok
                         (oauth2_RefreshToken resp)) cx in
                  let cx :=
                    if useStore r then emit (EvStorePut tok encrypted) cx
                    else
                      match parseToken w (oauth2_RefreshToken resp) with
                      | Err _ =>
                        dropRefreshTokenCookie encrypted (240 * Hour) cx
                      | Ok (_, ident) =>
                        dropRefreshTokenCookie encrypted
                          (time_Sub (ExpiresAt ident) (time_Now w)) cx
                      end in
                  callbackRedirect w cx
                end
              else
                let cx :=
                  dropAccessTokenCookie (Encode tok)
                    (time_Sub (ExpiresAt idt) (time_Now w)) cx in
                callbackRedirect w cx
            end
          end
        end
      end.

(** [oauth2.ErrorInvalidGrant] of go-oidc *)
Definition ErrorInvalidGrant : string := "invalid_grant".

(** The closure inside [loginHandler]: the context it leaves, and the
    triple (message, status code, error) it returns. *)
Definition loginAttempt (r : oauthProxy) (w : World) (cx : Context)
  : Context * (string * Z * option error) :=
  if negb (EnableLoginHandler (config r)) then
    (cx, ("attempt to login when login handler is disabled",
          StatusNotImplemented, Some (ErrorString "login handler disabled")))
  else
    let username := PostFormValue (request cx) "username" in
    let password := PostFormValue (request cx) "password" in
    if String.eqb username "" || String.eqb password "" then
      (cx, ("request does not have both username and password",
            StatusBadRequest, Some (ErrorString "no credentials")))
    else
      match OAuthClient w with
      | Err err =>
        (cx, ("unable to create the oauth client for user_credentials request",
              StatusInternalServerError, Some err))
      | Ok client =>
        let cx := emit (EvPasswordGrant username password) cx in
        match UserCredsToken w client username password with
        | Err err =>
          if String.prefix ErrorInvalidGrant (Error w err) then
            (cx, ("invalid user credentials provided",
                  StatusUnauthorized, Some err))
          else
            (cx, ("unable to request the access token via grant_type 'password'",
                  StatusInternalServerError, Some err))
        | Ok tok =>
          match parseToken w (oauth2_AccessToken tok) with
          | Err err =>
            (cx, ("unable to decode the access token",
                  StatusNotImplemented, Some err))
          | Ok (_, idt) =>
            let cx :=
              dropAccessTokenCookie (oauth2_AccessToken tok)
                (time_Sub (ExpiresAt idt) (time_Now w)) cx in
            let cx :=
              JSON StatusOK
                {| IDToken := oauth2_IDToken tok;
                   AccessToken := oauth2_AccessToken tok;
                   RefreshToken := oauth2_RefreshToken tok;
                   ExpiresIn := oauth2_Expires tok;
                   Scope := oauth2_Scope tok |} cx in
            (cx, ("", StatusOK, None))
          end
        end
      end.

(** [loginHandler] *)
Definition loginHandler (r : oauthProxy) (w : World) (cx : Context)
  : Context :=
  let '(cx, (_, code, err)) := loginAttempt r w cx in
  match err with
  | Some _ => NoContent code cx
  | None => cx
  end.

(** [expirationHandler] *)
Definition expirationHandler (r : oauthProxy) (w : World) (cx : Context)
  : Context :=
  match getIdentity w (request cx) with
  | Err _ => NoContent StatusUnauthorized cx
  | Ok u =>
    if isExpired w u then NoContent StatusUnauthorized cx
    else NoContent StatusOK cx
  end.

(** ** middleware.go, the header injector *)

(** Further fields of [Config], read by the header injector and the
    logout handler only. *)
Record ConfigMore : Type := mkConfigMore {
  Headers : gmap string string;
  EnableAuthorizationHeader : bool;
  RevocationEndpoint : string;
  ClientSecret : string
}.

(** Library functions and package helpers that the header injector and
    the logout handler call; as with [World], each is a field and the
    theorems hold for every behaviour of them. *)
Record Library : Type := mkLibrary {
  (** the key under which [http.Header.Set] and [Get] file a header *)
  CanonicalMIMEHeaderKey : string -> string;
  (** [toHeader], the package's turn of a claim name into a header name *)
  toHeader : string -> string;
  (** [t.String()] of a [time.Time] *)
  Time_String : Time -> string;
  (** [fmt.Sprintf("%v", claim)] *)
  Sprintf_v : json -> string;
  (** [url.QueryEscape] *)
  QueryEscape : string -> string;
  (** the order in which a [for ... range] visits [config.Headers] and the
      custom claims on this request *)
  range_Headers : gmap string string -> list (string * string);
  range_customClaims : gmap string string -> list (string * string);
  (** [r.idp.EndSessionEndpoint.String()] *)
  EndSessionEndpoint : string;
  (** the error of [http.NewRequest(POST, url, body)], by URL *)
  NewRequest_error : string -> option error
}.

(** Both loops visit every entry of their map once. *)
Definition range_maps_ok (lib : Library) : Prop :=
  (forall m, range_Headers lib m ≡ₚ map_to_list m) /\
  (forall m, range_customClaims lib m ≡ₚ map_to_list m).

Definition set_request (cx : Context) (req : Request) : Context :=
  {| request := req; user := user cx;
     response := response cx; trace := trace cx |}.

(** [req.Header.Set(k, v)] *)
Definition Header_Set (lib : Library) (k v : string) (req : Request)
  : Request :=
  {| Host := Host req; RequestURI := RequestURI req;
     Header := <[CanonicalMIMEHeaderKey lib k := v]> (Header req);
     Query := Query req; PostForm := PostForm req; TLS := TLS req |}.

(** The [customClaims] map that [headersMiddleware] builds once: every
    configured claim name with the header it is forwarded under. *)
Definition customClaims (lib : Library) (custom : list string)
  : gmap string string :=
  foldl (fun m x => <[x := "X-Auth-" +:+ toHeader lib x]> m) ∅ custom.

(** The loop over [config.Headers]. *)
Definition setConfigHeaders (lib : Library) (headers : list (string * string))
    (req : Request) : Request :=
  foldl (fun rq kv => Header_Set lib kv.1 kv.2 rq) req headers.

(** The loop over the custom claims: a claim the identity has is
    forwarded, one it lacks is passed over. *)
Definition setCustomClaims (lib : Library) (u : userContext)
    (cs : list (string * string)) (req : Request) : Request :=
  foldl (fun rq ch =>
           match claims u !! ch.1 with
           | Some claim => Header_Set lib ch.2 (Sprintf_v lib claim) rq
           | None => rq
           end) req cs.

(** The identity headers, in the order they are set. *)
Definition setIdentityHeaders (lib : Library) (u : userContext)
    (req : Request) : Request :=
  let req := Header_Set lib "X-Auth-Email" (email u) req in
  let req :=
    Header_Set lib "X-Auth-ExpiresIn" (Time_String lib (expiresAt u)) req in
  let req := Header_Set lib "X-Auth-Roles" (String.concat "," (roles u)) req in
  let req := Header_Set lib "X-Auth-Subject" (id u) req in
  let req := Header_Set lib "X-Auth-Token" (Encode (token u)) req in
  let req := Header_Set lib "X-Auth-Userid" (name u) req in
  Header_Set lib "X-Auth-Username" (name u) req.

(** [headersMiddleware] *)
Definition headersMiddleware (more : ConfigMore) (lib : Library)
    (custom : list string) (next : HandlerFunc) : HandlerFunc := fun cx =>
  let req :=
    setConfigHeaders lib (range_Headers lib (Headers more)) (request cx) in
  let req :=
    match user cx with
    | None => req
    | Some u =>
      let req := setIdentityHeaders lib u req in
      let req :=
        if EnableAuthorizationHeader more then
          Header_Set lib "Authorization" ("Bearer " +:+ Encode (token u)) req
        else req in
      setCustomClaims lib u
        (range_customClaims lib (customClaims lib custom)) req
    end in
  invoke next (set_request cx req).

(** The names of the identity headers. *)
Definition identityHeaderNames : list string :=
  ["X-Auth-Email"; "X-Auth-ExpiresIn"; "X-Auth-Roles"; "X-Auth-Subject";
   "X-Auth-Token"; "X-Auth-Userid"; "X-Auth-Username"].

(** ** handlers.go, the logout handler *)

(** The request the logout handler sends to the revocation endpoint. *)
Record Revocation : Type := mkRevocation {
  revocationURL : string;
  revocationBody : string;
  basicAuthUser : string;
  basicAuthPassword : string;
  contentType : string
}.

(** What the logout handler does outside the response and the cookies. *)
Inductive Outbound : Type :=
  | GoDeleteRefreshToken (key : JWT)
  | PostRevocation (rq : Revocation).

(** [logoutHandler]; [Do] is [client.HttpClient().Do(request)], answering
    with the status code of the revocation endpoint. *)
Definition logoutHandler (r : oauthProxy) (more : ConfigMore) (w : World)
    (lib : Library) (Do : Revocation -> result Z) (cx : Context)
  : Context * list Outbound :=
  let redirectURL := QueryParam (request cx) "redirect" in
  match getIdentity w (request cx) with
  | Err _ => (NoContent StatusBadRequest cx, [])
  | Ok u =>
    let identityToken :=
      match retrieveRefreshToken r w (request cx) u with
      | Ok refresh => refresh
      | Err _ => Encode (token u)
      end in
    let cx := clearAllCookies cx in
    let out := if useStore r then [GoDeleteRefreshToken (token u)] else [] in
    let url :=
      defaultTo (RevocationEndpoint more) (EndSessionEndpoint lib) in
    let finish (cx : Context) : Context :=
      if negb (String.eqb redirectURL "") then redirectToURL redirectURL cx
      else NoContent StatusOK cx in
    if negb (String.eqb url "") then
      match OAuthClient w with
      | Err _ => (NoContent StatusInternalServerError cx, out)
      | Ok client =>
        let encodedID := QueryEscape lib (ClientID (config r)) in
        let encodedSecret := QueryEscape lib (ClientSecret more) in
        match NewRequest_error lib url with
        | Some _ => (NoContent StatusInternalServerError cx, out)
        | None =>
          let rq :=
            {| revocationURL := url;
               revocationBody := "refresh_token=" +:+ identityToken;
               basicAuthUser := encodedID;
               basicAuthPassword := encodedSecret;
               contentType := "application/x-www-form-urlencoded" |} in
          let out := (out ++ [PostRevocation rq])%list in
          match Do rq with
          | Err _ => (cx, out)
          | Ok _ => (finish cx, out)
          end
        end
      end
    else (finish cx, out)
  end.

(** ** What a middleware does with the rest of the chain *)

(** The middleware passes the request on: whatever the next handler is, it
    is called on [c]. *)
Definition hands_over (h : HandlerFunc -> HandlerFunc) (cx c : Context)
  : Prop :=
  forall next, h next cx = invoke next c.

(** The middleware answers the request itself and leaves [d]: the outcome
    is the same whatever the next handler is, and no call of it is
    recorded. *)
Definition rejects (h : HandlerFunc -> HandlerFunc) (cx d : Context) : Prop :=
  (forall next, h next cx = Returned d) /\
  (EvNext ∈ trace d -> EvNext ∈ trace cx).

(** The silent refresh of the authentication middleware succeeds with the
    new access token [tok]: refreshing is enabled, a refresh token is found
    and the exchange returns. *)
Definition silentRefresh (r : oauthProxy) (w : World) (req : Request)
    (u : userContext) : option JWT :=
  if EnableRefreshTokens (config r) then
    match retrieveRefreshToken r w req u with
    | Err _ => None
    | Ok refresh =>
      match getRefreshedToken w refresh with
      | Err _ => None
      | Ok (tok, _) => Some tok
      end
    end
  else None.

(** What one round of the loop over the matchers asks of the identity. *)
Definition claim_matches (u : userContext) (m : string * Regexp) : Prop :=
  exists value,
    claims u !! m.1 = Some (JString value) /\ MatchString m.2 value = true.

(** The token that becomes the session in the callback: the access token
    when it parses, the ID token otherwise. *)
Definition sessionToken (w : World) (resp : TokenResponse) (idToken : JWT)
  : JWT :=
  match parseToken w (oauth2_AccessToken resp) with
  | Err _ => idToken
  | Ok (access, _) => access
  end.

(** The identity that goes with [sessionToken]. *)
Definition sessionIdentity (w : World) (resp : TokenResponse)
    (idIdentity : Identity) : Identity :=
  match parseToken w (oauth2_AccessToken resp) with
  | Err _ => idIdentity
  | Ok (_, accessIdentity) => accessIdentity
  end.

(** The events that change the session kept by the client or the store. *)
Definition touches_session (e : Event) : bool :=
  match e with
  | EvDropAccessTokenCookie _ _ | EvDropRefreshTokenCookie _ _
  | EvClearAllCookies | EvStorePut _ _ | EvGoStoreUpdate _ _ _ => true
  | EvCodeExchange _ | EvRefreshExchange _ | EvPasswordGrant _ _
  | EvNext => false
  end.

(** ** Sample proxies, worlds and requests *)

Module Sample.

Definition expiredToken : JWT := mkJWT "eyJhbGciOiJSUzI1NiJ9" "old" "c2ln".
Definition freshToken : JWT := mkJWT "eyJhbGciOiJSUzI1NiJ9" "new" "c2ln".

Definition rohith : userContext :=
  {| id := "1e11e539-8256-4b3b-bda8-cc0d56cddb48";
     name := "rjayawardene";
     email := "gambol99@gmail.com";
     roles := ["user"];
     audience := ["test"];
     expiresAt := 1000;
     claims := {[ "item" := JString "test" ]};
     token := expiredToken |}.

Definition cfg (redirection : string) (refresh login skip noRedirects : bool)
    (matches : gmap string string) : Config :=
  {| ClientID := "test";
     RedirectionURL := redirection;
     EncryptionKey := "AgXa7xRcoClDEU0ZDSH4X0XhL5Qy2Z2j";
     Scopes := [];
     EnableRefreshTokens := refresh;
     EnableLoginHandler := login;
     SkipTokenVerification := skip;
     NoRedirects := noRedirects;
     MatchClaims := matches;
     SignInPage := "";
     Tags := ∅ |}.

(** refresh tokens and the login handler on, verification on, redirects
    off, no claim matching, no store *)
Definition proxy : oauthProxy :=
  {| config := cfg "" true true false true ∅; store := None |}.

Definition proxySkip : oauthProxy :=
  {| config := cfg "" true true true true ∅; store := None |}.

Definition proxyClaims : oauthProxy :=
  {| config := cfg "" true true false true {[ "item" := "^t.*$" ]};
     store := None |}.

Definition req (query form : gmap string string) : Request :=
  {| Host := "127.0.0.1:3000";
     RequestURI := "/admin";
     Header := ∅;
     Query := query;
     PostForm := form;
     TLS := false |}.

Definition cx0 (query form : gmap string string) : Context :=
  {| request := req query form;
     user := None;
     response := {| Status := 0; Committed := false;
                    Location := ""; body := NoBody |};
     trace := [] |}.

(** the two expressions of the claim tests *)
Definition compile (expr : string) : option Regexp :=
  if String.eqb expr "^t.*$" then Some (String.prefix "t")
  else if String.eqb expr ".*" then Some (fun _ => true)
  else None.

Definition tokens : TokenResponse :=
  {| oauth2_AccessToken := "access";
     oauth2_IDToken := "id";
     oauth2_RefreshToken := "opaque-refresh";
     oauth2_Expires := 300;
     oauth2_Scope := "openid" |}.

(** A world around one session: [verify] is the verdict on every token,
    [refreshed] the answer of the refresh exchange, [parse] the token
    parser and [grant] the answer to a password grant. *)
Definition world (verify : JWT -> option error)
    (refreshed : result (JWT * Time))
    (parse : string -> result (JWT * Identity))
    (grant : result TokenResponse) : World :=
  {| time_Now := 2000;
     sentinel_text := fun _ => "the token has expired";
     getIdentity := fun _ => Ok rohith;
     verifyToken := verify;
     parseToken := parse;
     GetRefreshToken := fun _ => Err (ErrorString "no session state found");
     getRefreshTokenFromCookie := fun _ => Ok "encrypted";
     encodeText := fun _ _ => Ok "encrypted";
     decodeText := fun _ _ => Ok "opaque-refresh";
     getRefreshedToken := fun _ => refreshed;
     getAccessCookieExpiration := fun _ _ => 300 * 1000000000;
     getOAuthClient := fun url => Ok (OAuth2Client url);
     OAuthClient := Ok (OAuth2Client "");
     exchangeAuthenticationCode := fun _ _ => Ok tokens;
     AuthCodeURL := fun _ state _ _ => "http://idp/auth?state=" +:+ state;
     UserCredsToken := fun _ _ _ => grant;
     base64_DecodeString := fun _ => Err (ErrorString "illegal base64 data");
     path_Base := fun p => p;
     regexp_Compile := compile;
     range_claimMatches := map_to_list |}.

(** a parser that reads the ID and access tokens and takes the refresh
    token for opaque *)
Definition parseJWTs (encoded : string) : result (JWT * Identity) :=
  if String.eqb encoded "opaque-refresh" then
    Err (ErrorString "malformed JWT, only 1 segments")
  else Ok (freshToken, mkIdentity (id rohith) (name rohith) (email rohith) 5000).

(** a parser that reads every token *)
Definition parseAll (encoded : string) : result (JWT * Identity) :=
  Ok (freshToken, mkIdentity (id rohith) (name rohith) (email rohith) 5000).

(** a parser that reads no token *)
Definition parseNone (encoded : string) : result (JWT * Identity) :=
  Err (ErrorString "malformed JWT, only 1 segments").

(** the proxy's clock is ahead of every token: verification reports
    expiry, the refresh exchange delivers a new token *)
Definition wRefresh : World :=
  world (fun _ => Some ErrAccessTokenExpired) (Ok (freshToken, 5000))
        parseJWTs (Ok tokens).

(** the token is expired and the identity provider is unreachable *)
Definition wRefreshHard : World :=
  world (fun _ => Some ErrAccessTokenExpired)
        (Err (ErrorString "connection refused")) parseJWTs (Ok tokens).

(** the token is expired and so is the refresh token *)
Definition wRefreshExpired : World :=
  world (fun _ => Some ErrAccessTokenExpired) (Err ErrRefreshTokenExpired)
        parseJWTs (Ok tokens).

(** the signature of the token does not verify *)
Definition wBadSignature : World :=
  world (fun _ => Some (ErrorString "signature is invalid"))
        (Ok (freshToken, 5000)) parseJWTs (Ok tokens).

(** every token verifies *)
Definition wValid (parse : string -> result (JWT * Identity)) : World :=
  world (fun _ => None) (Ok (freshToken, 5000)) parse (Ok tokens).

Definition adminOnly : Resource :=
  {| URL := "/admin"; Methods := []; WhiteListed := false;
     Roles := ["admin"] |}.

Definition anyRole : Resource :=
  {| URL := "/admin"; Methods := []; WhiteListed := false; Roles := [] |}.

(** a request on which the authentication middleware has already put the
    identity *)
Definition cxUser : Context := set_user (cx0 ∅ ∅) rohith.

(** the context the authentication middleware hands over after a silent
    refresh of the session of [cx0] *)
Definition cxRefreshed : Context :=
  set_user
    (dropAccessTokenCookie (Encode freshToken) 300000000000
       (emit (EvRefreshExchange "opaque-refresh")
          (set_user (cx0 ∅ ∅) rohith)))
    (set_token rohith freshToken).

(** a login request with both credentials *)
Definition cxLogin : Context :=
  cx0 ∅ {[ "username" := "rjayawardene"; "password" := "secret" ]}.

(** the redirect of the identity provider back to the proxy *)
Definition cxCallback : Context := cx0 {[ "code" := "abc" ]} ∅.

End Sample.

(** ** Further sample proxies and worlds *)

Module Scenario.

(** a proxy that keeps refresh tokens in a session store *)
Definition proxyStore : oauthProxy :=
  {| config := Sample.cfg "" true true false true ∅;
     store := Some "redis://127.0.0.1:6379" |}.

(** a proxy with refresh tokens switched off *)
Definition proxyNoRefresh : oauthProxy :=
  {| config := Sample.cfg "" false true false true ∅; store := None |}.

(** [w] with another text cipher *)
Definition with_encodeText (f : string -> string -> result string)
    (w : World) : World :=
  {| time_Now := time_Now w;
     sentinel_text := sentinel_text w;
     getIdentity := getIdentity w;
     verifyToken := verifyToken w;
     parseToken := parseToken w;
     GetRefreshToken := GetRefreshToken w;
     getRefreshTokenFromCookie := getRefreshTokenFromCookie w;
     encodeText := f;
     decodeText := decodeText w;
     getRefreshedToken := getRefreshedToken w;
     getAccessCookieExpiration := getAccessCookieExpiration w;
     getOAuthClient := getOAuthClient w;
     OAuthClient := OAuthClient w;
     exchangeAuthenticationCode := exchangeAuthenticationCode w;
     AuthCodeURL := AuthCodeURL w;
     UserCredsToken := UserCredsToken w;
     base64_DecodeString := base64_DecodeString w;
     path_Base := path_Base w;
     regexp_Compile := regexp_Compile w;
     range_claimMatches := range_claimMatches w |}.

(** the encryption key is not usable *)
Definition wNoKey : World :=
  with_encodeText
    (fun _ _ => Err (ErrorString "crypto/aes: invalid key size 5"))
    (Sample.wValid Sample.parseJWTs).

(** [w] with another session extractor *)
Definition with_getIdentity (f : Request -> result userContext) (w : World)
  : World :=
  {| time_Now := time_Now w;
     sentinel_text := sentinel_text w;
     getIdentity := f;
     verifyToken := verifyToken w;
     parseToken := parseToken w;
     GetRefreshToken := GetRefreshToken w;
     getRefreshTokenFromCookie := getRefreshTokenFromCookie w;
     encodeText := encodeText w;
     decodeText := decodeText w;
     getRefreshedToken := getRefreshedToken w;
     getAccessCookieExpiration := getAccessCookieExpiration w;
     getOAuthClient := getOAuthClient w;
     OAuthClient := OAuthClient w;
     exchangeAuthenticationCode := exchangeAuthenticationCode w;
     AuthCodeURL := AuthCodeURL w;
     UserCredsToken := UserCredsToken w;
     base64_DecodeString := base64_DecodeString w;
     path_Base := path_Base w;
     regexp_Compile := regexp_Compile w;
     range_claimMatches := range_claimMatches w |}.

(** the request carries no session *)
Definition wNoSession : World :=
  with_getIdentity (fun _ => Err (ErrorString "authentication session not found"))
    (Sample.wValid Sample.parseJWTs).

(** a library whose header keys are already canonical and whose claim
    names are forwarded as they are *)
Definition lib : Library :=
  {| CanonicalMIMEHeaderKey := fun k => k;
     toHeader := fun c => c;
     Time_String := fun _ => "1970-01-01 00:00:00.000001 +0000 UTC";
     Sprintf_v := fun v => match v with JString s => s | _ => "<value>" end;
     QueryEscape := fun s => s;
     range_Headers := map_to_list;
     range_customClaims := map_to_list;
     EndSessionEndpoint := "http://idp/logout";
     NewRequest_error := fun _ => None |}.

(** an upstream header fixed by the configuration, no Authorization
    header *)
Definition more : ConfigMore :=
  {| Headers := {[ "X-Proxy" := "keycloak" ]};
     EnableAuthorizationHeader := false;
     RevocationEndpoint := "";
     ClientSecret := "secret" |}.

(** a request whose sender claims to be somebody else *)
Definition cxSpoofed : Context :=
  set_request (Sample.cx0 ∅ ∅)
    {| Host := "127.0.0.1:3000";
       RequestURI := "/admin";
       Header := {[ "X-Auth-Email" := "admin@example.com" ]};
       Query := ∅;
       PostForm := ∅;
       TLS := false |}.

(** a request that came through a TLS-terminating front proxy *)
Definition cxForwarded : Context :=
  set_request (Sample.cx0 ∅ ∅)
    {| Host := "127.0.0.1:3000";
       RequestURI := "/admin";
       Header := {[ "X-Forwarded-Proto" := "https";
                    "X-Forwarded-Host" := "proxy.example.com" ]};
       Query := ∅;
       PostForm := ∅;
       TLS := false |}.

End Scenario.

(** * Properties *)

Ltac auth_unfold :=
  unfold authenticationMiddleware, hands_over, rejects, silentRefresh.

(** ** Basic facts about the context operations *)

Lemma error_eqb_eq (a b : error) : error_eqb a b = true <-> a = b.
Proof.
  destruct a, b; simpl; split; try congruence; try reflexivity.
  - intros H. apply String.eqb_eq in H. congruence.
  - intros H. injection H as ->. apply String.eqb_refl.
Qed.

Lemma error_eqb_neq (a b : error) : error_eqb a b = false <-> a <> b.
Proof.
  rewrite <- error_eqb_eq. destruct (error_eqb a b); split; congruence.
Qed.

Lemma trace_NoContent code cx : trace (NoContent code cx) = trace cx.
Proof. reflexivity. Qed.

Lemma trace_redirectToURL url cx : trace (redirectToURL url cx) = trace cx.
Proof. reflexivity. Qed.

Lemma trace_redirectToAuthorization r cx :
  trace (redirectToAuthorization r cx) = trace cx.
Proof. unfold redirectToAuthorization. by destruct (NoRedirects _). Qed.

Lemma trace_accessForbidden r cx : trace (accessForbidden r cx) = trace cx.
Proof. unfold accessForbidden. by destruct (NoRedirects _). Qed.

Lemma trace_callbackRedirect w cx : trace (callbackRedirect w cx) = trace cx.
Proof. reflexivity. Qed.

Lemma Status_NoContent code cx :
  Committed (response cx) = false -> Status (response (NoContent code cx)) = code.
Proof. intros H. unfold NoContent, WriteHeader. simpl. by rewrite H. Qed.

Lemma Status_redirectToURL url cx :
  Committed (response cx) = false ->
  Status (response (redirectToURL url cx)) = StatusTemporaryRedirect.
Proof.
  intros H. unfold redirectToURL, Redirect, WriteHeader. simpl. by rewrite H.
Qed.

Lemma Status_accessForbidden r cx :
  Committed (response cx) = false ->
  Status (response (accessForbidden r cx)) =
    if NoRedirects (config r) then StatusForbidden
    else StatusTemporaryRedirect.
Proof.
  intros H. unfold accessForbidden, authorizeRedirect.
  destruct (NoRedirects _).
  - by apply Status_NoContent.
  - by apply Status_redirectToURL.
Qed.

(** A call of the next handler cannot be mistaken for an answer of the
    middleware itself, and it determines the context that is handed over. *)
Lemma invoke_not_Returned c d :
  (forall next, Returned d = invoke next c) -> False.
Proof. intros H. specialize (H (fun _ => Panicked)). discriminate H. Qed.

Lemma invoke_user c c' :
  (forall next, invoke next c = invoke next c') -> user c = user c'.
Proof.
  intros H. specialize (H Returned). unfold invoke in H.
  apply (f_equal (fun o => match o with
                           | Returned x => user x
                           | Panicked => None
                           end)) in H.
  exact H.
Qed.

Lemma hands_over_not_rejects h cx c d :
  hands_over h cx c -> rejects h cx d -> False.
Proof.
  intros Hc [Hd _]. apply (invoke_not_Returned c d).
  intros next. rewrite <- (Hd next). apply Hc.
Qed.

Lemma hands_over_user h cx c c' :
  hands_over h cx c -> hands_over h cx c' -> user c = user c'.
Proof.
  intros H H'. apply invoke_user. intros next.
  by rewrite <- (H next), <- (H' next).
Qed.

(** ** The flow handlers under skip-token-verification *)

(** C10. With SkipTokenVerification enabled, the authorization and the
    callback handler both answer 406 Not Acceptable at once: the context
    they leave is the one they were given with that status written, and no
    exchange with the identity provider and no cookie operation is
    recorded. *)
Theorem skip_verification_not_acceptable (r : oauthProxy) (w : World)
    (cx : Context) :
  SkipTokenVerification (config r) = true ->
  oauthAuthorizationHandler r w cx = NoContent StatusNotAcceptable cx /\
  oauthCallbackHandler r w cx = NoContent StatusNotAcceptable cx /\
  trace (oauthAuthorizationHandler r w cx) = trace cx /\
  trace (oauthCallbackHandler r w cx) = trace cx /\
  (Committed (response cx) = false ->
   Status (response (oauthAuthorizationHandler r w cx)) = 406 /\
   Status (response (oauthCallbackHandler r w cx)) = 406).
Proof.
  intros Hskip.
  unfold oauthAuthorizationHandler, oauthCallbackHandler.
  rewrite Hskip. repeat split; auto using Status_NoContent.
Qed.

Lemma skip_verification_not_acceptable_witness :
  Status (response (oauthAuthorizationHandler Sample.proxySkip
            Sample.wRefresh (Sample.cx0 {[ "code" := "abc" ]} ∅))) = 406 /\
  Status (response (oauthCallbackHandler Sample.proxySkip
            Sample.wRefresh (Sample.cx0 {[ "code" := "abc" ]} ∅))) = 406.
Proof.
  apply (skip_verification_not_acceptable Sample.proxySkip Sample.wRefresh
           (Sample.cx0 {[ "code" := "abc" ]} ∅)); reflexivity.
Defined.

(** ** The expiry probe *)

Lemma isExpired_lt w u : isExpired w u = true <-> expiresAt u < time_Now w.
Proof. unfold isExpired, time_Before. apply Z.ltb_lt. Qed.

Lemma isExpired_ge w u : isExpired w u = false <-> time_Now w <= expiresAt u.
Proof. unfold isExpired, time_Before. rewrite Z.ltb_ge. reflexivity. Qed.

(** C9. GET /oauth/expired answers 200 exactly when an identity can be
    extracted from the request and its expiry is not in the past, and 401
    exactly when the extraction fails or the expiry is in the past. *)
Theorem expirationHandler_status (r : oauthProxy) (w : World) (cx : Context) :
  Committed (response cx) = false ->
  (Status (response (expirationHandler r w cx)) = 200 <->
   exists u, getIdentity w (request cx) = Ok u /\
             time_Now w <= expiresAt u) /\
  (Status (response (expirationHandler r w cx)) = 401 <->
   (exists e, getIdentity w (request cx) = Err e) \/
   (exists u, getIdentity w (request cx) = Ok u /\
              expiresAt u < time_Now w)).
Proof.
  intros Hfresh. unfold expirationHandler.
  destruct (getIdentity w (request cx)) as [u|e].
  - destruct (isExpired w u) eqn:Hexp; rewrite Status_NoContent by done.
    + apply isExpired_lt in Hexp. split; split.
      * discriminate.
      * intros (u' & [= <-] & Hle). lia.
      * intros _. right. by exists u.
      * done.
    + apply isExpired_ge in Hexp. split; split.
      * intros _. by exists u.
      * done.
      * discriminate.
      * intros [[e He] | (u' & [= <-] & Hlt)]; [discriminate | lia].
  - rewrite Status_NoContent by done. split; split.
    + discriminate.
    + intros (u & Hu & _). discriminate.
    + intros _. left. by exists e.
    + done.
Qed.

Lemma expirationHandler_status_witness :
  Status (response (expirationHandler Sample.proxy Sample.wRefresh
                      (Sample.cx0 ∅ ∅))) = 401 <->
  (exists e, getIdentity Sample.wRefresh (request (Sample.cx0 ∅ ∅)) = Err e) \/
  (exists u, getIdentity Sample.wRefresh (request (Sample.cx0 ∅ ∅)) = Ok u /\
             expiresAt u < time_Now Sample.wRefresh).
Proof.
  apply (expirationHandler_status Sample.proxy Sample.wRefresh
           (Sample.cx0 ∅ ∅)).
  reflexivity.
Defined.

(** ** The redirection URL *)

(** C4. What the code computes when RedirectionURL is unset and no
    X-Forwarded-Proto header is present: the scheme is "https" on a
    connection without TLS and "http" on one with TLS, the reverse of the
    default the claim describes; the host is X-Forwarded-Host if present
    and the request Host otherwise, and "/oauth/callback" is appended. *)
Theorem getRedirectionURL_scheme (r : oauthProxy) (cx : Context) :
  RedirectionURL (config r) = "" ->
  Header (request cx) !! "X-Forwarded-Proto" = None ->
  getRedirectionURL r cx =
    (if IsTLS cx then "http" else "https") +:+ "://" +:+
    (match Header (request cx) !! "X-Forwarded-Host" with
     | Some h => if String.eqb h "" then Host (request cx) else h
     | None => Host (request cx)
     end) +:+ "/oauth/callback".
Proof.
  intros Hunset Hproto. unfold getRedirectionURL, Header_Get, defaultTo.
  rewrite Hunset, Hproto. simpl.
  destruct (Header (request cx) !! "X-Forwarded-Host") as [h|]; simpl;
    destruct (IsTLS cx); reflexivity.
Qed.

Lemma getRedirectionURL_scheme_witness :
  getRedirectionURL Sample.proxy (Sample.cx0 ∅ ∅) =
    "https://127.0.0.1:3000/oauth/callback".
Proof.
  rewrite (getRedirectionURL_scheme Sample.proxy (Sample.cx0 ∅ ∅));
    reflexivity.
Defined.

(** ** The authentication middleware *)

(** No session in the request: the middleware answers itself. *)
Lemma authentication_no_session r w resource cx e :
  getIdentity w (request cx) = Err e ->
  rejects (authenticationMiddleware r w resource) cx
          (redirectToAuthorization r cx).
Proof.
  intros Hid. auth_unfold. rewrite Hid. split; [done|].
  by rewrite trace_redirectToAuthorization.
Qed.

(** The token verifies: the request is passed on with the identity of the
    request. *)
Lemma authentication_verified r w resource cx u :
  getIdentity w (request cx) = Ok u ->
  SkipTokenVerification (config r) = false ->
  verifyToken w (token u) = None ->
  hands_over (authenticationMiddleware r w resource) cx (set_user cx u).
Proof.
  intros Hid Hskip Hver next. auth_unfold. by rewrite Hid, Hskip, Hver.
Qed.

(** Verification fails with something else than expiry. *)
Lemma authentication_invalid r w resource cx u e :
  getIdentity w (request cx) = Ok u ->
  SkipTokenVerification (config r) = false ->
  verifyToken w (token u) = Some e ->
  e <> ErrAccessTokenExpired ->
  forall next,
    authenticationMiddleware r w resource next cx =
      Returned (accessForbidden r (set_user cx u)).
Proof.
  intros Hid Hskip Hver Hne next. auth_unfold.
  rewrite Hid, Hskip, Hver.
  apply error_eqb_neq in Hne. by rewrite Hne.
Qed.

(** The token is expired and the silent refresh succeeds: the request is
    passed on with the new token in the identity. *)
Lemma authentication_refreshed r w resource cx u tok :
  getIdentity w (request cx) = Ok u ->
  SkipTokenVerification (config r) = false ->
  verifyToken w (token u) = Some ErrAccessTokenExpired ->
  silentRefresh r w (request cx) u = Some tok ->
  exists c,
    hands_over (authenticationMiddleware r w resource) cx c /\
    user c = Some (set_token u tok).
Proof.
  intros Hid Hskip Hver. auth_unfold. rewrite Hid, Hskip, Hver. simpl.
  destruct (EnableRefreshTokens (config r)); [simpl | discriminate].
  destruct (retrieveRefreshToken r w (request cx) u) as [refresh|];
    [| discriminate].
  destruct (getRefreshedToken w refresh) as [[tok' t]|]; [| discriminate].
  intros [= ->]. eexists. split; [intros next; reflexivity |].
  by destruct (useStore r).
Qed.

(** The token is expired and the silent refresh does not succeed. *)
Lemma authentication_not_refreshed r w resource cx u :
  getIdentity w (request cx) = Ok u ->
  SkipTokenVerification (config r) = false ->
  verifyToken w (token u) = Some ErrAccessTokenExpired ->
  silentRefresh r w (request cx) u = None ->
  exists d, rejects (authenticationMiddleware r w resource) cx d.
Proof.
  intros Hid Hskip Hver. auth_unfold. rewrite Hid, Hskip, Hver. simpl.
  destruct (EnableRefreshTokens (config r)); simpl.
  - destruct (retrieveRefreshToken r w (request cx) u) as [refresh|].
    + destruct (getRefreshedToken w refresh) as [[tok' t]|e]; [discriminate|].
      intros _. eexists. split; [done|].
      rewrite trace_redirectToAuthorization.
      destruct e; simpl; rewrite ?elem_of_app, ?elem_of_cons, ?elem_of_nil;
        intros H; decompose [or] H; done.
    + intros _. eexists. split; [done|].
      by rewrite trace_redirectToAuthorization.
  - intros _. eexists. split; [done|].
    by rewrite trace_redirectToAuthorization.
Qed.

(** C2. A token whose verification fails with any error other than
    AccessTokenExpired is rejected through accessForbidden, whatever the
    rest of the chain is; nothing is recorded on the way, in particular no
    refresh exchange, and the next handler is not called. *)
Theorem authentication_hard_reject (r : oauthProxy) (w : World)
    (resource : Resource) (cx : Context) (u : userContext) (e : error) :
  getIdentity w (request cx) = Ok u ->
  SkipTokenVerification (config r) = false ->
  verifyToken w (token u) = Some e ->
  e <> ErrAccessTokenExpired ->
  rejects (authenticationMiddleware r w resource) cx
          (accessForbidden r (set_user cx u)) /\
  trace (accessForbidden r (set_user cx u)) = trace cx /\
  (forall refresh,
     EvRefreshExchange refresh ∈ trace (accessForbidden r (set_user cx u)) ->
     EvRefreshExchange refresh ∈ trace cx).
Proof.
  intros Hid Hskip Hver Hne.
  assert (Htr : trace (accessForbidden r (set_user cx u)) = trace cx)
    by (by rewrite trace_accessForbidden).
  split; [split|split]; try done.
  - by apply authentication_invalid with e.
  - by rewrite Htr.
  - intros refresh. by rewrite Htr.
Qed.

Lemma authentication_hard_reject_witness :
  rejects (authenticationMiddleware Sample.proxy Sample.wBadSignature
             Sample.anyRole)
          (Sample.cx0 ∅ ∅)
          (accessForbidden Sample.proxy
             (set_user (Sample.cx0 ∅ ∅) Sample.rohith)).
Proof.
  apply (authentication_hard_reject Sample.proxy Sample.wBadSignature
           Sample.anyRole (Sample.cx0 ∅ ∅) Sample.rohith
           (ErrorString "signature is invalid"));
    [reflexivity | reflexivity | reflexivity | discriminate].
Defined.

(** C1, as stated, fails on the refresh path.  The proxy's clock is ahead
    of the tokens, so verification reports expiry for every token; the
    refresh exchange delivers a new token, which is put into the identity
    and handed to the next handler without being verified. *)
Lemma handover_token_not_verified :
  ~ (forall c,
       hands_over (authenticationMiddleware Sample.proxy Sample.wRefresh
                     Sample.anyRole) (Sample.cx0 ∅ ∅) c ->
       SkipTokenVerification (config Sample.proxy) = false ->
       exists u, user c = Some u /\
                 verifyToken Sample.wRefresh (token u) = None).
Proof.
  intros H.
  destruct (H Sample.cxRefreshed) as (u & _ & Hver).
  - intros next. reflexivity.
  - reflexivity.
  - discriminate Hver.
Qed.

(** C1, amended.  With verification on, a request is handed to the next
    handler only with an identity that carries either the token of the
    request, for which verifyToken returned ok, or, when verifyToken
    reported that token expired and the silent refresh succeeded, the token
    the refresh exchange returned; and whenever verification fails and the
    silent refresh does not succeed, the middleware answers itself and the
    next handler is not called. *)
Theorem authentication_handover (r : oauthProxy) (w : World)
    (resource : Resource) (cx : Context) :
  SkipTokenVerification (config r) = false ->
  (forall c,
     hands_over (authenticationMiddleware r w resource) cx c ->
     exists u,
       getIdentity w (request cx) = Ok u /\
       ((verifyToken w (token u) = None /\ user c = Some u) \/
        (verifyToken w (token u) = Some ErrAccessTokenExpired /\
         exists tok,
           silentRefresh r w (request cx) u = Some tok /\
           user c = Some (set_token u tok)))) /\
  (forall u e,
     getIdentity w (request cx) = Ok u ->
     verifyToken w (token u) = Some e ->
     e <> ErrAccessTokenExpired \/ silentRefresh r w (request cx) u = None ->
     exists d, rejects (authenticationMiddleware r w resource) cx d).
Proof.
  intros Hskip. split.
  - intros c Hc.
    destruct (getIdentity w (request cx)) as [u|e] eqn:Hid.
    2: { exfalso. eapply hands_over_not_rejects; [exact Hc|].
         by eapply authentication_no_session. }
    exists u. split; [done|].
    destruct (verifyToken w (token u)) as [e|] eqn:Hver.
    + destruct (error_eqb e ErrAccessTokenExpired) eqn:He.
      * apply error_eqb_eq in He as ->. right. split; [done|].
        destruct (silentRefresh r w (request cx) u) as [tok|] eqn:Href.
        -- exists tok. split; [done|].
           destruct (authentication_refreshed r w resource cx u tok)
             as (c' & Hc' & Hu); try done.
           by rewrite (hands_over_user _ _ _ _ Hc Hc').
        -- exfalso.
           destruct (authentication_not_refreshed r w resource cx u)
             as (d & Hd); try done.
           eapply hands_over_not_rejects; [exact Hc | exact Hd].
      * apply error_eqb_neq in He. exfalso.
        eapply hands_over_not_rejects; [exact Hc|].
        split; [by eapply authentication_invalid|].
        by rewrite trace_accessForbidden.
    + left. split; [done|].
      by rewrite (hands_over_user _ _ _ _ Hc
                    (authentication_verified r w resource cx u Hid Hskip Hver)).
  - intros u e Hid Hver Hfail.
    destruct (error_eqb e ErrAccessTokenExpired) eqn:He.
    + apply error_eqb_eq in He as ->.
      destruct Hfail as [Hne | Href]; [done|].
      by apply authentication_not_refreshed with u.
    + apply error_eqb_neq in He.
      exists (accessForbidden r (set_user cx u)).
      split; [by eapply authentication_invalid|].
      by rewrite trace_accessForbidden.
Qed.

Lemma authentication_handover_witness :
  exists u,
    getIdentity Sample.wRefresh (request (Sample.cx0 ∅ ∅)) = Ok u /\
    ((verifyToken Sample.wRefresh (token u) = None /\
      user Sample.cxRefreshed = Some u) \/
     (verifyToken Sample.wRefresh (token u) = Some ErrAccessTokenExpired /\
      exists tok,
        silentRefresh Sample.proxy Sample.wRefresh
          (request (Sample.cx0 ∅ ∅)) u = Some tok /\
        user Sample.cxRefreshed = Some (set_token u tok))).
Proof.
  destruct (authentication_handover Sample.proxy Sample.wRefresh
              Sample.anyRole (Sample.cx0 ∅ ∅)) as [Hpass _];
    [reflexivity|].
  apply (Hpass Sample.cxRefreshed). intros next. reflexivity.
Defined.

(** C5, as stated, fails when the exchange fails for another reason than
    an expired refresh token.  Here the identity provider cannot be
    reached: the middleware answers through redirectToAuthorization and
    clears no cookie. *)
Lemma refresh_hard_failure_keeps_cookies :
  getRefreshedToken Sample.wRefreshHard "opaque-refresh" =
    Err (ErrorString "connection refused") /\
  ~ (forall d,
       (forall next,
          authenticationMiddleware Sample.proxy Sample.wRefreshHard
            Sample.anyRole next (Sample.cx0 ∅ ∅) = Returned d) ->
       EvClearAllCookies ∈ trace d).
Proof.
  split; [reflexivity|].
  intros H.
  specialize (H (redirectToAuthorization Sample.proxy
                   (emit (EvRefreshExchange "opaque-refresh")
                      (set_user (Sample.cx0 ∅ ∅) Sample.rohith)))
                (fun next => eq_refl)).
  simpl in H. rewrite elem_of_cons, elem_of_nil in H.
  destruct H as [H|H]; [discriminate | done].
Qed.

(** C5, amended.  When the refresh exchange fails, the middleware answers
    through redirectToAuthorization and the next handler is not called;
    the cookies are cleared before that when the failure is
    RefreshTokenExpired, and no cookie is touched on any other failure. *)
Theorem refresh_failure (r : oauthProxy) (w : World) (resource : Resource)
    (cx : Context) (u : userContext) (refresh : string) (e : error) :
  getIdentity w (request cx) = Ok u ->
  SkipTokenVerification (config r) = false ->
  verifyToken w (token u) = Some ErrAccessTokenExpired ->
  EnableRefreshTokens (config r) = true ->
  retrieveRefreshToken r w (request cx) u = Ok refresh ->
  getRefreshedToken w refresh = Err e ->
  exists d,
    rejects (authenticationMiddleware r w resource) cx d /\
    (e = ErrRefreshTokenExpired ->
     d = redirectToAuthorization r
           (clearAllCookies
              (emit (EvRefreshExchange refresh) (set_user cx u))) /\
     trace d =
       (trace cx ++ [EvRefreshExchange refresh; EvClearAllCookies])%list) /\
    (e <> ErrRefreshTokenExpired ->
     d = redirectToAuthorization r
           (emit (EvRefreshExchange refresh) (set_user cx u)) /\
     trace d = (trace cx ++ [EvRefreshExchange refresh])%list).
Proof.
  intros Hid Hskip Hver Hen Hret Hex.
  exists (redirectToAuthorization r
            (match e with
             | ErrRefreshTokenExpired =>
               clearAllCookies
                 (emit (EvRefreshExchange refresh) (set_user cx u))
             | _ => emit (EvRefreshExchange refresh) (set_user cx u)
             end)).
  split; [split|split].
  - intros next. auth_unfold.
    rewrite Hid, Hskip, Hver, Hen. simpl. by rewrite Hret, Hex.
  - rewrite trace_redirectToAuthorization.
    destruct e; simpl; rewrite ?elem_of_app, ?elem_of_cons, ?elem_of_nil;
      intros H; decompose [or] H; done.
  - intros ->. split; [done|].
    rewrite trace_redirectToAuthorization. simpl.
    by rewrite <- app_assoc.
  - intros Hne. destruct e; try done;
      (split; [done | by rewrite trace_redirectToAuthorization]).
Qed.

Lemma refresh_failure_witness :
  exists d,
    rejects (authenticationMiddleware Sample.proxy Sample.wRefreshExpired
               Sample.anyRole) (Sample.cx0 ∅ ∅) d /\
    (ErrRefreshTokenExpired = ErrRefreshTokenExpired ->
     d = redirectToAuthorization Sample.proxy
           (clearAllCookies
              (emit (EvRefreshExchange "opaque-refresh")
                 (set_user (Sample.cx0 ∅ ∅) Sample.rohith))) /\
     trace d = (trace (Sample.cx0 ∅ ∅) ++
               [EvRefreshExchange "opaque-refresh"; EvClearAllCookies])%list) /\
    (ErrRefreshTokenExpired <> ErrRefreshTokenExpired ->
     d = redirectToAuthorization Sample.proxy
           (emit (EvRefreshExchange "opaque-refresh")
              (set_user (Sample.cx0 ∅ ∅) Sample.rohith)) /\
     trace d = (trace (Sample.cx0 ∅ ∅) ++
               [EvRefreshExchange "opaque-refresh"])%list).
Proof.
  apply (refresh_failure Sample.proxy Sample.wRefreshExpired Sample.anyRole
           (Sample.cx0 ∅ ∅) Sample.rohith "opaque-refresh"
           ErrRefreshTokenExpired); reflexivity.
Defined.

(** ** The admission middleware *)

Lemma containedIn_spec (value : string) (l : list string) :
  containedIn value l = true <-> value ∈ l.
Proof.
  unfold containedIn. rewrite existsb_exists. split.
  - intros (x & Hin & Heq). apply String.eqb_eq in Heq as ->.
    by apply list_elem_of_In.
  - intros Hin. exists value. split; [by apply list_elem_of_In|].
    apply String.eqb_refl.
Qed.

Lemma hasRoles_spec (required issued : list string) :
  hasRoles required issued = true <->
  forall role, role ∈ required -> role ∈ issued.
Proof.
  unfold hasRoles. rewrite forallb_forall. split.
  - intros H role Hin. apply containedIn_spec, H. by apply list_elem_of_In.
  - intros H role Hin. apply containedIn_spec, H. by apply list_elem_of_In.
Qed.

Lemma rangeClaimMatches_denied r u cx ms d :
  rangeClaimMatches r u cx ms = Some d -> d = accessForbidden r cx.
Proof.
  induction ms as [|[k re] ms IH]; simpl; [discriminate|].
  destruct (StringClaim (claims u) k) as [[value found]|]; [|congruence].
  destruct found; simpl; [|congruence].
  destruct (MatchString re value); simpl; [exact IH | congruence].
Qed.

Lemma rangeClaimMatches_passed r u cx ms :
  rangeClaimMatches r u cx ms = None <-> Forall (claim_matches u) ms.
Proof.
  induction ms as [|[k re] ms IH]; simpl.
  - split; [constructor | done].
  - rewrite Forall_cons, <- IH. unfold claim_matches, StringClaim. simpl.
    destruct (claims u !! k) as [v|]; simpl.
    2: { split; [discriminate | by intros [(value & Hv & _) _]]. }
    destruct v as [| | |s| |]; simpl;
      try (split; [discriminate | by intros [(value & Hv & _) _]]).
    destruct (MatchString re s) eqn:Hm; simpl.
    + split; [intros Hrest; split; [by exists s | done] | by intros [_ Hrest]].
    + split; [discriminate|].
      intros [(value & [= <-] & Hv) _]. congruence.
Qed.

Lemma claimMatches_lookup r w matchers claimName re :
  claimMatches r w = Some matchers ->
  matchers !! claimName = Some re <->
  exists expr, MatchClaims (config r) !! claimName = Some expr /\
               regexp_Compile w expr = Some re.
Proof.
  unfold claimMatches. case_decide as Hall; [|discriminate]. intros [= <-].
  rewrite lookup_omap.
  destruct (MatchClaims (config r) !! claimName) as [expr|]; simpl.
  - split; [intros Hre; by exists expr | by intros (? & [= <-] & ?)].
  - split; [discriminate | by intros (? & ? & _)].
Qed.

Lemma range_claimMatches_elem w (matchers : gmap string Regexp) claimName re :
  range_order_ok w ->
  (claimName, re) ∈ range_claimMatches w matchers <->
  matchers !! claimName = Some re.
Proof.
  intros Hord. rewrite (Hord matchers). apply elem_of_map_to_list.
Qed.

(** The handler either denies through accessForbidden or passes the
    untouched context on, the latter when the audience, the roles and
    every claim matcher are satisfied. *)
Lemma admissionHandler_cases r w resource matchers cx u :
  user cx = Some u ->
  rejects (admissionHandler r w resource matchers) cx (accessForbidden r cx)
  \/
  (hands_over (admissionHandler r w resource matchers) cx cx /\
   (Roles resource = [] \/ hasRoles (Roles resource) (roles u) = true) /\
   Forall (claim_matches u) (range_claimMatches w matchers)).
Proof.
  intros Hu. unfold rejects, hands_over, admissionHandler. rewrite Hu.
  destruct (negb (ClientID (config r) =? "")%string
            && negb (isAudience u (ClientID (config r)))).
  { left. split; [done | by rewrite trace_accessForbidden]. }
  destruct ((0 <? Z.of_nat (length (Roles resource)))
            && negb (hasRoles (Roles resource) (roles u))) eqn:Hroles.
  { left. split; [done | by rewrite trace_accessForbidden]. }
  destruct (rangeClaimMatches r u cx (range_claimMatches w matchers))
    as [d|] eqn:Hclaims.
  { apply rangeClaimMatches_denied in Hclaims as ->.
    left. split; [done | by rewrite trace_accessForbidden]. }
  right. split; [done|]. split.
  - apply andb_false_iff in Hroles as [Hlen | Hhas].
    + left. apply Z.ltb_ge in Hlen.
      destruct (Roles resource); [done | simpl in Hlen; lia].
    + right. by apply negb_false_iff in Hhas.
  - by apply rangeClaimMatches_passed in Hclaims.
Qed.

Lemma admissionMiddleware_handler r w resource h :
  admissionMiddleware r w resource = Some h ->
  exists matchers,
    claimMatches r w = Some matchers /\
    h = admissionHandler r w resource matchers.
Proof.
  unfold admissionMiddleware.
  destruct (claimMatches r w) as [matchers|]; [|discriminate].
  intros [= <-]. by exists matchers.
Qed.

(** C3. On a resource with a non-empty roles set the request is passed on
    only if the identity has every role of the resource; when a role is
    missing the middleware answers through accessForbidden, which is a 403
    with NoRedirects and a 307 without, and neither calls the next handler
    nor records anything. *)
Theorem admission_roles (r : oauthProxy) (w : World) (resource : Resource)
    (h : HandlerFunc -> HandlerFunc) (cx : Context) (u : userContext) :
  admissionMiddleware r w resource = Some h ->
  user cx = Some u ->
  Roles resource <> [] ->
  (forall c, hands_over h cx c ->
     forall role, role ∈ Roles resource -> role ∈ roles u) /\
  (~ (forall role, role ∈ Roles resource -> role ∈ roles u) ->
   rejects h cx (accessForbidden r cx) /\
   trace (accessForbidden r cx) = trace cx /\
   (Committed (response cx) = false ->
    Status (response (accessForbidden r cx)) =
      if NoRedirects (config r) then 403 else 307)).
Proof.
  intros Hmw Hu Hroles.
  apply admissionMiddleware_handler in Hmw as (matchers & _ & ->).
  destruct (admissionHandler_cases r w resource matchers cx u Hu)
    as [Hrej | (Hpass & [Hnil | Hhas] & _)]; try done.
  - split.
    + intros c Hc. exfalso. eapply hands_over_not_rejects; eauto.
    + intros _. split; [done|]. split; [apply trace_accessForbidden|].
      apply Status_accessForbidden.
  - pose proof (proj1 (hasRoles_spec _ _) Hhas) as Hall.
    split; [by intros c _ | done].
Qed.

Lemma admission_roles_witness :
  rejects (admissionHandler Sample.proxy Sample.wRefresh
             Sample.adminOnly ∅) Sample.cxUser
          (accessForbidden Sample.proxy Sample.cxUser) /\
  Status (response (accessForbidden Sample.proxy Sample.cxUser)) = 403.
Proof.
  destruct (admission_roles Sample.proxy Sample.wRefresh Sample.adminOnly
              (admissionHandler Sample.proxy Sample.wRefresh
                 Sample.adminOnly ∅)
              Sample.cxUser Sample.rohith)
    as [_ Hdeny]; [reflexivity | reflexivity | discriminate |].
  destruct Hdeny as (Hrej & _ & Hstatus).
  - intros Hall.
    assert (Hin : "admin" ∈ roles Sample.rohith)
      by (apply Hall, list_elem_of_singleton; reflexivity).
    apply list_elem_of_singleton in Hin. discriminate Hin.
  - split; [exact Hrej | apply Hstatus; reflexivity].
Defined.

(** C6. For every configured pair (claimName, expression) of MatchClaims
    the request is passed on only if the identity has the claim as a string
    that the compiled expression matches; a claim that is missing, one
    that is not a string and one whose value does not match each end in
    accessForbidden without a call of the next handler, in whatever order
    the pairs are visited. *)
Theorem admission_claims (r : oauthProxy) (w : World) (resource : Resource)
    (h : HandlerFunc -> HandlerFunc) (cx : Context) (u : userContext) :
  range_order_ok w ->
  admissionMiddleware r w resource = Some h ->
  user cx = Some u ->
  (forall c, hands_over h cx c ->
     forall claimName expr,
       MatchClaims (config r) !! claimName = Some expr ->
       exists re value,
         regexp_Compile w expr = Some re /\
         claims u !! claimName = Some (JString value) /\
         MatchString re value = true) /\
  (forall claimName expr re,
     MatchClaims (config r) !! claimName = Some expr ->
     regexp_Compile w expr = Some re ->
     claims u !! claimName = None \/
     (exists v, claims u !! claimName = Some v /\
                forall value, v <> JString value) \/
     (exists value, claims u !! claimName = Some (JString value) /\
                    MatchString re value = false) ->
     rejects h cx (accessForbidden r cx)).
Proof.
  intros Hord Hmw Hu.
  apply admissionMiddleware_handler in Hmw as (matchers & Hcm & ->).
  assert (Hall : Forall (claim_matches u) (range_claimMatches w matchers) ->
                 forall claimName expr,
                   MatchClaims (config r) !! claimName = Some expr ->
                   exists re value,
                     regexp_Compile w expr = Some re /\
                     claims u !! claimName = Some (JString value) /\
                     MatchString re value = true).
  { intros Hfa claimName expr Hexpr.
    assert (Hcomp : is_Some (regexp_Compile w expr)).
    { unfold claimMatches in Hcm. case_decide as Hok; [|discriminate].
      by apply (Hok claimName expr). }
    destruct Hcomp as [re Hre].
    assert (Hin : (claimName, re) ∈ range_claimMatches w matchers).
    { apply range_claimMatches_elem; [done|].
      apply (claimMatches_lookup r w matchers claimName re Hcm).
      by exists expr. }
    rewrite Forall_forall in Hfa.
    destruct (Hfa _ Hin) as (value & Hv & Hm).
    by exists re, value. }
  destruct (admissionHandler_cases r w resource matchers cx u Hu)
    as [Hrej | (Hpass & _ & Hfa)].
  - split; [|done].
    intros c Hc. exfalso. eapply hands_over_not_rejects; eauto.
  - split; [by intros c _; apply Hall|].
    intros claimName expr re Hexpr Hre Hbad. exfalso.
    destruct (Hall Hfa claimName expr Hexpr) as (re' & value & Hre' & Hv & Hm).
    assert (re' = re) as -> by congruence.
    destruct Hbad as [Hnone | [(v & Hv' & Hns) | (value' & Hv' & Hm')]].
    + congruence.
    + apply (Hns value). congruence.
    + assert (value' = value) as -> by congruence. congruence.
Qed.

Lemma admission_claims_witness :
  exists re value,
    regexp_Compile Sample.wRefresh "^t.*$" = Some re /\
    claims Sample.rohith !! "item" = Some (JString value) /\
    MatchString re value = true.
Proof.
  destruct (admission_claims Sample.proxyClaims Sample.wRefresh
              Sample.anyRole
              (admissionHandler Sample.proxyClaims Sample.wRefresh
                 Sample.anyRole (omap Sample.compile {[ "item" := "^t.*$" ]}))
              Sample.cxUser Sample.rohith) as [Hpass _].
  - intros m. reflexivity.
  - reflexivity.
  - reflexivity.
  - apply (Hpass Sample.cxUser); [|reflexivity].
    intros next. reflexivity.
Defined.

(** ** The login handler *)

(** C7, as stated, fails for one failure: the password grant succeeds but
    the access token it returns cannot be decoded.  That is none of the
    three named failures, and the answer is 501, not 500. *)
Lemma login_undecodable_token_not_500 :
  ~ (EnableLoginHandler (config Sample.proxy) = true ->
     PostFormValue (request Sample.cxLogin) "username" <> "" ->
     PostFormValue (request Sample.cxLogin) "password" <> "" ->
     (forall e,
        UserCredsToken (Sample.wValid Sample.parseNone) (OAuth2Client "")
          "rjayawardene" "secret" = Err e ->
        String.prefix ErrorInvalidGrant
          (Error (Sample.wValid Sample.parseNone) e) = false) ->
     (loginAttempt Sample.proxy (Sample.wValid Sample.parseNone)
        Sample.cxLogin).2.2 <> None ->
     Status (response (loginHandler Sample.proxy
                         (Sample.wValid Sample.parseNone)
                         Sample.cxLogin)) = 500).
Proof.
  intros H.
  assert (Hstatus :
            Status (response (loginHandler Sample.proxy
                                (Sample.wValid Sample.parseNone)
                                Sample.cxLogin)) = 501) by reflexivity.
  rewrite H in Hstatus; try discriminate; try reflexivity.
Qed.

(** C7, amended.  POST /oauth/login answers 501 when the login handler is
    disabled, 400 when the username or the password is missing, 500 when
    no OAuth client can be made, 401 when the password grant fails with an
    error that starts with invalid_grant and 500 when it fails otherwise,
    and 501 when the access token of a successful grant cannot be decoded;
    on success it drops the access cookie and answers 200 with a JSON body
    of id_token, access_token, refresh_token, expires_in and scope. *)
Theorem loginHandler_status (r : oauthProxy) (w : World) (cx : Context) :
  Committed (response cx) = false ->
  (EnableLoginHandler (config r) = false ->
   Status (response (loginHandler r w cx)) = 501) /\
  (EnableLoginHandler (config r) = true ->
   PostFormValue (request cx) "username" = "" \/
   PostFormValue (request cx) "password" = "" ->
   Status (response (loginHandler r w cx)) = 400) /\
  (EnableLoginHandler (config r) = true ->
   PostFormValue (request cx) "username" <> "" ->
   PostFormValue (request cx) "password" <> "" ->
   (forall e, OAuthClient w = Err e ->
      Status (response (loginHandler r w cx)) = 500) /\
   (forall client e,
      OAuthClient w = Ok client ->
      UserCredsToken w client (PostFormValue (request cx) "username")
        (PostFormValue (request cx) "password") = Err e ->
      Status (response (loginHandler r w cx)) =
        if String.prefix "invalid_grant" (Error w e) then 401 else 500) /\
   (forall client tok e,
      OAuthClient w = Ok client ->
      UserCredsToken w client (PostFormValue (request cx) "username")
        (PostFormValue (request cx) "password") = Ok tok ->
      parseToken w (oauth2_AccessToken tok) = Err e ->
      Status (response (loginHandler r w cx)) = 501) /\
   (forall client tok t idt,
      OAuthClient w = Ok client ->
      UserCredsToken w client (PostFormValue (request cx) "username")
        (PostFormValue (request cx) "password") = Ok tok ->
      parseToken w (oauth2_AccessToken tok) = Ok (t, idt) ->
      Status (response (loginHandler r w cx)) = 200 /\
      body (response (loginHandler r w cx)) =
        JSONBody {| IDToken := oauth2_IDToken tok;
                    AccessToken := oauth2_AccessToken tok;
                    RefreshToken := oauth2_RefreshToken tok;
                    ExpiresIn := oauth2_Expires tok;
                    Scope := oauth2_Scope tok |} /\
      trace (loginHandler r w cx) =
        (trace cx ++
         [EvPasswordGrant (PostFormValue (request cx) "username")
            (PostFormValue (request cx) "password");
          EvDropAccessTokenCookie (oauth2_AccessToken tok)
            (time_Sub (ExpiresAt idt) (time_Now w))])%list)).
Proof.
  intros Hfresh. unfold loginHandler, loginAttempt.
  split; [|split].
  - intros ->. simpl. by apply Status_NoContent.
  - intros -> Hmissing. simpl.
    assert ((PostFormValue (request cx) "username" =? "")%string
            || (PostFormValue (request cx) "password" =? "")%string = true)
      as ->.
    { apply orb_true_iff. destruct Hmissing as [-> | ->]; auto. }
    by apply Status_NoContent.
  - intros -> Huser Hpass. simpl.
    apply String.eqb_neq in Huser, Hpass. rewrite Huser, Hpass. simpl.
    split; [|split; [|split]].
    + intros e ->. by apply Status_NoContent.
    + intros client e -> ->.
      destruct (String.prefix ErrorInvalidGrant (Error w e)) eqn:Hprefix;
        unfold ErrorInvalidGrant in Hprefix; rewrite Hprefix;
        by apply Status_NoContent.
    + intros client tok e -> -> ->. by apply Status_NoContent.
    + intros client tok t idt -> -> ->. simpl. split; [|split].
      * unfold WriteHeader. by rewrite Hfresh.
      * done.
      * by rewrite <- app_assoc.
Qed.

Lemma loginHandler_status_witness :
  Status (response (loginHandler Sample.proxy (Sample.wValid Sample.parseAll)
                      Sample.cxLogin)) = 200 /\
  Status (response (loginHandler Sample.proxy (Sample.wValid Sample.parseNone)
                      Sample.cxLogin)) = 501.
Proof.
  split.
  - destruct (loginHandler_status Sample.proxy
                (Sample.wValid Sample.parseAll) Sample.cxLogin eq_refl)
      as (_ & _ & Hin).
    destruct Hin as (_ & _ & _ & Hok);
      [reflexivity | discriminate | discriminate |].
    apply (Hok (OAuth2Client "") Sample.tokens Sample.freshToken
             (mkIdentity (id Sample.rohith) (name Sample.rohith)
                (email Sample.rohith) 5000)); reflexivity.
  - destruct (loginHandler_status Sample.proxy
                (Sample.wValid Sample.parseNone) Sample.cxLogin eq_refl)
      as (_ & _ & Hin).
    destruct Hin as (_ & _ & Hundecodable & _);
      [reflexivity | discriminate | discriminate |].
    apply (Hundecodable (OAuth2Client "") Sample.tokens
             (ErrorString "malformed JWT, only 1 segments")); reflexivity.
Defined.

(** ** The callback handler *)

Lemma time_Sub_in_range (t u : Time) :
  minDuration <= t - u <= maxDuration -> time_Sub t u = t - u.
Proof.
  intros [Hlo Hhi]. unfold time_Sub.
  destruct (Z.ltb_spec (t - u) minDuration); [lia|].
  destruct (Z.ltb_spec maxDuration (t - u)); [lia|]. reflexivity.
Qed.

(** The callback up to the point where the refresh token is persisted:
    with refresh tokens enabled and no store, the handler drops the access
    cookie, then the refresh cookie with the lifetime [expiry], and ends
    with the redirect. *)
Lemma callback_refresh_cookie r w cx client resp tok idt encrypted :
  SkipTokenVerification (config r) = false ->
  QueryParam (request cx) "code" <> "" ->
  getOAuthClient w (getRedirectionURL r cx) = Ok client ->
  exchangeAuthenticationCode w client (QueryParam (request cx) "code")
    = Ok resp ->
  parseToken w (oauth2_IDToken resp) = Ok (tok, idt) ->
  verifyToken w tok = None ->
  EnableRefreshTokens (config r) = true ->
  oauth2_RefreshToken resp <> "" ->
  encodeText w (oauth2_RefreshToken resp) (EncryptionKey (config r))
    = Ok encrypted ->
  useStore r = false ->
  oauthCallbackHandler r w cx =
    callbackRedirect w
      (dropRefreshTokenCookie encrypted
         (match parseToken w (oauth2_RefreshToken resp) with
          | Err _ => 240 * Hour
          | Ok (_, ident) => time_Sub (ExpiresAt ident) (time_Now w)
          end)
         (dropAccessTokenCookie (Encode (sessionToken w resp tok))
            (getAccessCookieExpiration w (sessionToken w resp tok)
               (oauth2_RefreshToken resp))
            (emit (EvCodeExchange (QueryParam (request cx) "code")) cx))).
Proof.
  intros Hskip Hcode Hclient Hexch Hid Hver Hen Hrefresh Henc Hstore.
  unfold oauthCallbackHandler, sessionToken.
  apply String.eqb_neq in Hcode, Hrefresh.
  rewrite Hskip, Hcode, Hclient. simpl.
  rewrite Hexch, Hid, Hver, Hen, Hrefresh. simpl.
  destruct (parseToken w (oauth2_AccessToken resp)) as [[access aid]|];
    rewrite Henc, Hstore;
    by destruct (parseToken w (oauth2_RefreshToken resp)) as [[t ident]|].
Qed.

(** C8. In the callback, with refresh tokens enabled and no store in use,
    a refresh token that cannot be parsed as a JWT does not stop the
    handler: the encrypted refresh token is dropped as a cookie with the
    default lifetime of 240 hours and the handler ends with its redirect;
    when the refresh token parses, the lifetime of the cookie is the
    expiry of the refresh token minus the current time. *)
Theorem callback_refresh_cookie_expiry (r : oauthProxy) (w : World)
    (cx : Context) (client : Client) (resp : TokenResponse) (tok : JWT)
    (idt : Identity) (encrypted : string) :
  SkipTokenVerification (config r) = false ->
  QueryParam (request cx) "code" <> "" ->
  getOAuthClient w (getRedirectionURL r cx) = Ok client ->
  exchangeAuthenticationCode w client (QueryParam (request cx) "code")
    = Ok resp ->
  parseToken w (oauth2_IDToken resp) = Ok (tok, idt) ->
  verifyToken w tok = None ->
  EnableRefreshTokens (config r) = true ->
  oauth2_RefreshToken resp <> "" ->
  encodeText w (oauth2_RefreshToken resp) (EncryptionKey (config r))
    = Ok encrypted ->
  useStore r = false ->
  exists expiry,
    trace (oauthCallbackHandler r w cx) =
      (trace cx ++
       [EvCodeExchange (QueryParam (request cx) "code");
        EvDropAccessTokenCookie (Encode (sessionToken w resp tok))
          (getAccessCookieExpiration w (sessionToken w resp tok)
             (oauth2_RefreshToken resp));
        EvDropRefreshTokenCookie encrypted expiry])%list /\
    (Committed (response cx) = false ->
     Status (response (oauthCallbackHandler r w cx)) = 307) /\
    (forall e,
       parseToken w (oauth2_RefreshToken resp) = Err e ->
       expiry = 240 * Hour /\ expiry = 864000000000000) /\
    (forall t ident,
       parseToken w (oauth2_RefreshToken resp) = Ok (t, ident) ->
       expiry = time_Sub (ExpiresAt ident) (time_Now w) /\
       (minDuration <= ExpiresAt ident - time_Now w <= maxDuration ->
        expiry = ExpiresAt ident - time_Now w)).
Proof.
  intros Hskip Hcode Hclient Hexch Hid Hver Hen Hrefresh Henc Hstore.
  rewrite (callback_refresh_cookie r w cx client resp tok idt encrypted)
    by done.
  eexists. split; [|split; [|split]].
  - rewrite trace_callbackRedirect. simpl.
    rewrite <- !app_assoc. simpl. reflexivity.
  - intros Hfresh. unfold callbackRedirect.
    by apply Status_redirectToURL.
  - intros e ->. split; reflexivity.
  - intros t ident ->. split; [reflexivity|].
    intros Hrange. by apply time_Sub_in_range.
Qed.

Lemma callback_refresh_cookie_expiry_witness :
  exists expiry,
    trace (oauthCallbackHandler Sample.proxy (Sample.wValid Sample.parseJWTs)
             Sample.cxCallback) =
      [EvCodeExchange "abc";
       EvDropAccessTokenCookie (Encode Sample.freshToken) 300000000000;
       EvDropRefreshTokenCookie "encrypted" expiry] /\
    expiry = 864000000000000.
Proof.
  destruct (callback_refresh_cookie_expiry Sample.proxy
              (Sample.wValid Sample.parseJWTs) Sample.cxCallback
              (OAuth2Client "https://127.0.0.1:3000/oauth/callback")
              Sample.tokens Sample.freshToken
              (mkIdentity (id Sample.rohith) (name Sample.rohith)
                 (email Sample.rohith) 5000)
              "encrypted")
    as (expiry & Htrace & _ & Hopaque & _);
    try reflexivity; try discriminate.
  exists expiry. split; [exact Htrace|].
  apply (Hopaque (ErrorString "malformed JWT, only 1 segments")).
  reflexivity.
Defined.

(** ** Scenarios of the test suite *)

(** TestAdmissionHandlerRoles: a resource that asks for "admin" and "test"
    admits a token with both roles in any order and denies one with
    neither. *)
Example either_roles_both :
  hasRoles ["admin"; "test"] ["test"; "admin"] = true.
Proof. reflexivity. Qed.

Example either_roles_none : hasRoles ["admin"; "test"] ["no_roles"] = false.
Proof. reflexivity. Qed.

(** TestRolePermissionsMiddleware, "check with correct token, not signed":
    with redirects off the answer is 403 and the upstream is not reached. *)
Example not_signed_forbidden :
  authenticationMiddleware Sample.proxy Sample.wBadSignature Sample.anyRole
    Returned (Sample.cx0 ∅ ∅)
  = Returned (NoContent StatusForbidden
                (set_user (Sample.cx0 ∅ ∅) Sample.rohith)).
Proof. reflexivity. Qed.

(** TestRolesAdmissionHandlerClaims: with the matcher item = ^t.*$ a token
    whose claim item is "test" is admitted. *)
Example claim_item_admitted :
  (fun h => h Returned Sample.cxUser) <$>
    admissionMiddleware Sample.proxyClaims Sample.wRefresh Sample.anyRole
  = Some (Returned (emit EvNext Sample.cxUser)).
Proof. reflexivity. Qed.

(** A claim expression that does not compile stops the construction of
    the middleware. *)
Example claim_expression_invalid :
  (fun h => h Returned Sample.cxUser) <$>
    admissionMiddleware
      {| config := Sample.cfg "" true true false true {[ "item" := "(" ]};
         store := None |}
      Sample.wRefresh Sample.anyRole
  = None.
Proof. reflexivity. Qed.

(** * Further properties of the pipeline *)

(** ** Handing over, in general *)

Lemma emit_inj e c c' : emit e c = emit e c' -> c = c'.
Proof.
  destruct c as [rq us rs tr], c' as [rq' us' rs' tr']. unfold emit. simpl.
  intros [= -> -> -> Htr]. apply app_inj_tail in Htr as [-> _]. reflexivity.
Qed.

Lemma hands_over_inj h cx c c' :
  hands_over h cx c -> hands_over h cx c' -> c = c'.
Proof.
  intros H H'. apply (emit_inj EvNext).
  pose proof (H Returned) as E. rewrite (H' Returned) in E.
  unfold invoke in E. congruence.
Qed.

(** Every run of the authentication middleware either answers itself, or
    passes on a context that holds an identity made from the one of the
    request and whose request and response are untouched. *)
Lemma authentication_cases r w resource cx :
  (exists d, forall next,
      authenticationMiddleware r w resource next cx = Returned d) \/
  (exists u c,
      getIdentity w (request cx) = Ok u /\
      hands_over (authenticationMiddleware r w resource) cx c /\
      request c = request cx /\ response c = response cx /\
      (user c = Some u \/ exists tok, user c = Some (set_token u tok))).
Proof.
  unfold hands_over, authenticationMiddleware.
  destruct (getIdentity w (request cx)) as [u|e]; [|left; by eexists].
  destruct (SkipTokenVerification (config r)).
  { destruct (isExpired w u); [left; by eexists|].
    right. exists u. eexists. repeat split; try done. by left. }
  destruct (verifyToken w (token u)) as [e|].
  2: { right. exists u. eexists. repeat split; try done. by left. }
  destruct (negb (error_eqb e ErrAccessTokenExpired)); [left; by eexists|].
  destruct (negb (EnableRefreshTokens (config r))); [left; by eexists|].
  simpl.
  destruct (retrieveRefreshToken r w (request cx) u) as [refresh|];
    [|left; by eexists].
  destruct (getRefreshedToken w refresh) as [[tok t]|e'];
    [|left; by eexists].
  right. exists u. eexists. split; [done|]. split; [done|].
  destruct (useStore r); simpl; repeat split; try done; right; by exists tok.
Qed.

(** ** The authentication middleware, further properties *)

(** X1. With SkipTokenVerification on, only the session and the clock
    decide: the request is passed on exactly when an identity is found and
    its expiry is not in the past, with that identity attached and nothing
    else changed; otherwise the middleware answers through
    redirectToAuthorization on a context with no event added, so an
    expired session is never refreshed, whatever the refresh settings. *)
Theorem skip_verification_only_expiry (r : oauthProxy) (w : World)
    (resource : Resource) (cx : Context) :
  SkipTokenVerification (config r) = true ->
  (forall c,
     hands_over (authenticationMiddleware r w resource) cx c <->
     exists u, getIdentity w (request cx) = Ok u /\
               time_Now w <= expiresAt u /\ c = set_user cx u) /\
  (forall d,
     (forall next, authenticationMiddleware r w resource next cx = Returned d)
     ->
     (exists e, getIdentity w (request cx) = Err e /\
                d = redirectToAuthorization r cx) \/
     (exists u, getIdentity w (request cx) = Ok u /\
                expiresAt u < time_Now w /\
                d = redirectToAuthorization r (set_user cx u))).
Proof.
  intros Hskip.
  assert (Hrun : forall next,
             authenticationMiddleware r w resource next cx =
             match getIdentity w (request cx) with
             | Err _ => Returned (redirectToAuthorization r cx)
             | Ok u =>
               if isExpired w u
               then Returned (redirectToAuthorization r (set_user cx u))
               else invoke next (set_user cx u)
             end).
  { intros next. unfold authenticationMiddleware. by rewrite Hskip. }
  split.
  - intros c. split.
    + intros Hc.
      destruct (getIdentity w (request cx)) as [u|e] eqn:Hid.
      * destruct (isExpired w u) eqn:Hexp.
        -- exfalso. apply (invoke_not_Returned c
                             (redirectToAuthorization r (set_user cx u))).
           intros next. by rewrite <- (Hc next), Hrun.
        -- exists u. split; [done|]. split; [by apply isExpired_ge|].
           apply (hands_over_inj _ _ _ _ Hc). intros next. by rewrite Hrun.
      * exfalso. apply (invoke_not_Returned c (redirectToAuthorization r cx)).
        intros next. by rewrite <- (Hc next), Hrun.
    + intros (u & Hid & Hexp & ->) next. rewrite Hrun, Hid.
      apply isExpired_ge in Hexp. by rewrite Hexp.
  - intros d Hd. pose proof (Hd (fun _ => Panicked)) as Hd'.
    rewrite Hrun in Hd'.
    destruct (getIdentity w (request cx)) as [u|e] eqn:Hid.
    + destruct (isExpired w u) eqn:Hexp; [|discriminate Hd'].
      right. exists u. split; [done|]. split; [by apply isExpired_lt|].
      congruence.
    + left. exists e. split; [done | congruence].
Qed.

Lemma skip_verification_only_expiry_witness :
  (exists e, getIdentity Sample.wRefresh (request (Sample.cx0 ∅ ∅)) = Err e /\
             redirectToAuthorization Sample.proxySkip
               (set_user (Sample.cx0 ∅ ∅) Sample.rohith) =
             redirectToAuthorization Sample.proxySkip (Sample.cx0 ∅ ∅))
  \/
  (exists u, getIdentity Sample.wRefresh (request (Sample.cx0 ∅ ∅)) = Ok u /\
             expiresAt u < time_Now Sample.wRefresh /\
             redirectToAuthorization Sample.proxySkip
               (set_user (Sample.cx0 ∅ ∅) Sample.rohith) =
             redirectToAuthorization Sample.proxySkip
               (set_user (Sample.cx0 ∅ ∅) u)).
Proof.
  destruct (skip_verification_only_expiry Sample.proxySkip Sample.wRefresh
              Sample.anyRole (Sample.cx0 ∅ ∅)) as [_ Hanswer];
    [reflexivity|].
  apply Hanswer. intros next. reflexivity.
Defined.

(** X2. After a successful silent refresh the request is passed on with
    the response untouched and the access cookie already dropped: the
    events added are the exchange, the cookie with the encoded new token
    and the lifetime of getAccessCookieExpiration and, with a store, the
    store update.  The identity passed on has the new token but still the
    roles, claims, audience and expiry read from the expired token. *)
Theorem silent_refresh_handover (r : oauthProxy) (w : World)
    (resource : Resource) (cx : Context) (u : userContext)
    (refresh : string) (tok : JWT) (t : Time) :
  getIdentity w (request cx) = Ok u ->
  SkipTokenVerification (config r) = false ->
  verifyToken w (token u) = Some ErrAccessTokenExpired ->
  EnableRefreshTokens (config r) = true ->
  retrieveRefreshToken r w (request cx) u = Ok refresh ->
  getRefreshedToken w refresh = Ok (tok, t) ->
  exists c u',
    hands_over (authenticationMiddleware r w resource) cx c /\
    request c = request cx /\ response c = response cx /\
    user c = Some u' /\
    token u' = tok /\ roles u' = roles u /\ claims u' = claims u /\
    audience u' = audience u /\ expiresAt u' = expiresAt u /\
    trace c =
      (trace cx ++
       [EvRefreshExchange refresh;
        EvDropAccessTokenCookie (Encode tok)
          (getAccessCookieExpiration w tok refresh)] ++
       (if useStore r then [EvGoStoreUpdate (token u) tok refresh]
        else []))%list.
Proof.
  intros Hid Hskip Hver Hen Hret Hex.
  eexists. exists (set_token u tok). split.
  - intros next. unfold authenticationMiddleware.
    rewrite Hid, Hskip, Hver, Hen. simpl. rewrite Hret, Hex. reflexivity.
  - destruct (useStore r); simpl; repeat split;
      rewrite <- ?app_assoc; reflexivity.
Qed.

Lemma silent_refresh_handover_witness :
  exists c u',
    hands_over (authenticationMiddleware Sample.proxy Sample.wRefresh
                  Sample.anyRole) (Sample.cx0 ∅ ∅) c /\
    request c = request (Sample.cx0 ∅ ∅) /\
    response c = response (Sample.cx0 ∅ ∅) /\
    user c = Some u' /\
    token u' = Sample.freshToken /\ roles u' = roles Sample.rohith /\
    claims u' = claims Sample.rohith /\
    audience u' = audience Sample.rohith /\
    expiresAt u' = expiresAt Sample.rohith /\
    trace c =
      [EvRefreshExchange "opaque-refresh";
       EvDropAccessTokenCookie (Encode Sample.freshToken) 300000000000].
Proof.
  apply (silent_refresh_handover Sample.proxy Sample.wRefresh Sample.anyRole
           (Sample.cx0 ∅ ∅) Sample.rohith "opaque-refresh"
           Sample.freshToken 5000); reflexivity.
Defined.

(** ** The admission middleware, further properties *)

(** The claim matchers, seen from the configuration: every entry of the
    compiled map passes exactly when every configured pair is met. *)
Lemma claims_ok_iff r w matchers u :
  range_order_ok w ->
  claimMatches r w = Some matchers ->
  Forall (claim_matches u) (range_claimMatches w matchers) <->
  (forall claimName expr,
     MatchClaims (config r) !! claimName = Some expr ->
     exists re value,
       regexp_Compile w expr = Some re /\
       claims u !! claimName = Some (JString value) /\
       MatchString re value = true).
Proof.
  intros Hord Hcm. rewrite Forall_forall. split.
  - intros Hfa claimName expr Hexpr.
    assert (Hcomp : is_Some (regexp_Compile w expr)).
    { unfold claimMatches in Hcm. case_decide as Hok; [|discriminate].
      by apply (Hok claimName expr). }
    destruct Hcomp as [re Hre].
    destruct (Hfa (claimName, re)) as (value & Hv & Hm).
    { apply range_claimMatches_elem; [done|].
      apply (claimMatches_lookup r w matchers claimName re Hcm).
      by exists expr. }
    by exists re, value.
  - intros Hall [claimName re] Hin.
    apply range_claimMatches_elem in Hin; [|done].
    apply (claimMatches_lookup r w matchers claimName re Hcm) in Hin
      as (expr & Hexpr & Hre).
    destruct (Hall claimName expr Hexpr) as (re' & value & Hre' & Hv & Hm).
    assert (re' = re) as -> by congruence. by exists value.
Qed.

(** The three checks of the handler, with the reason of a denial. *)
Lemma admissionHandler_exact r w resource matchers cx u :
  user cx = Some u ->
  (rejects (admissionHandler r w resource matchers) cx (accessForbidden r cx)
   /\
   ((ClientID (config r) <> "" /\ ClientID (config r) ∉ audience u) \/
    ~ (forall role, role ∈ Roles resource -> role ∈ roles u) \/
    ~ Forall (claim_matches u) (range_claimMatches w matchers)))
  \/
  (hands_over (admissionHandler r w resource matchers) cx cx /\
   (ClientID (config r) = "" \/ ClientID (config r) ∈ audience u) /\
   (forall role, role ∈ Roles resource -> role ∈ roles u) /\
   Forall (claim_matches u) (range_claimMatches w matchers)).
Proof.
  intros Hu. unfold rejects, hands_over, admissionHandler. rewrite Hu.
  destruct (negb (ClientID (config r) =? "")%string
            && negb (isAudience u (ClientID (config r)))) eqn:Haud.
  { left. split; [split; [done | by rewrite trace_accessForbidden]|].
    left. apply andb_true_iff in Haud as [Hne Hnin].
    apply negb_true_iff in Hne, Hnin. split.
    - by apply String.eqb_neq.
    - intros Hin. apply containedIn_spec in Hin.
      unfold isAudience in Hnin. congruence. }
  assert (Haudience : ClientID (config r) = "" \/
                      ClientID (config r) ∈ audience u).
  { apply andb_false_iff in Haud as [Hnone | Hin].
    - left. apply negb_false_iff in Hnone. by apply String.eqb_eq.
    - right. apply negb_false_iff in Hin. by apply containedIn_spec. }
  destruct ((0 <? Z.of_nat (length (Roles resource)))
            && negb (hasRoles (Roles resource) (roles u))) eqn:Hroles.
  { left. split; [split; [done | by rewrite trace_accessForbidden]|].
    right. left. apply andb_true_iff in Hroles as [_ Hhas].
    apply negb_true_iff in Hhas.
    intros Hall. apply hasRoles_spec in Hall. congruence. }
  assert (Hrolesok : forall role, role ∈ Roles resource -> role ∈ roles u).
  { apply andb_false_iff in Hroles as [Hlen | Hhas].
    - apply Z.ltb_ge in Hlen. destruct (Roles resource) as [|x l].
      + intros role Hin. by apply elem_of_nil in Hin.
      + simpl in Hlen. lia.
    - apply negb_false_iff in Hhas. by apply hasRoles_spec. }
  destruct (rangeClaimMatches r u cx (range_claimMatches w matchers))
    as [d|] eqn:Hclaims.
  { pose proof (rangeClaimMatches_denied _ _ _ _ _ Hclaims) as ->.
    left. split; [split; [done | by rewrite trace_accessForbidden]|].
    right. right. intros Hfa.
    apply (rangeClaimMatches_passed r u cx) in Hfa. congruence. }
  right. split; [done|]. split; [done|]. split; [done|].
  by apply rangeClaimMatches_passed in Hclaims.
Qed.

(** X3. The admission middleware passes a request on exactly when the
    configured client id is empty or in the identity's audience, the
    identity has every role of the resource, and every configured claim
    is a string matched by its expression; it then passes the context on
    unchanged.  In every other case it answers through accessForbidden. *)
Theorem admission_exact (r : oauthProxy) (w : World) (resource : Resource)
    (h : HandlerFunc -> HandlerFunc) (cx : Context) (u : userContext) :
  range_order_ok w ->
  admissionMiddleware r w resource = Some h ->
  user cx = Some u ->
  (hands_over h cx cx <->
   (ClientID (config r) = "" \/ ClientID (config r) ∈ audience u) /\
   (forall role, role ∈ Roles resource -> role ∈ roles u) /\
   (forall claimName expr,
      MatchClaims (config r) !! claimName = Some expr ->
      exists re value,
        regexp_Compile w expr = Some re /\
        claims u !! claimName = Some (JString value) /\
        MatchString re value = true)) /\
  (hands_over h cx cx \/ rejects h cx (accessForbidden r cx)) /\
  (ClientID (config r) <> "" ->
   ClientID (config r) ∉ audience u ->
   rejects h cx (accessForbidden r cx)).
Proof.
  intros Hord Hmw Hu.
  apply admissionMiddleware_handler in Hmw as (matchers & Hcm & ->).
  pose proof (claims_ok_iff r w matchers u Hord Hcm) as Hclaims.
  destruct (admissionHandler_exact r w resource matchers cx u Hu)
    as [[Hrej Hwhy] | (Hpass & Haud & Hroles & Hfa)].
  - split; [|split].
    + split.
      * intros Hc. exfalso. eapply hands_over_not_rejects; eauto.
      * intros (Haud & Hroles & Hall). exfalso.
        destruct Hwhy as [[Hne Hnin] | [Hnr | Hnc]].
        -- destruct Haud; done.
        -- done.
        -- apply Hnc. by apply Hclaims.
    + by right.
    + done.
  - split; [|split].
    + split; [|done]. intros _. repeat split; try done. by apply Hclaims.
    + by left.
    + intros Hne Hnin. destruct Haud; done.
Qed.

Lemma admission_exact_witness :
  hands_over (admissionHandler Sample.proxyClaims Sample.wRefresh
                Sample.anyRole (omap Sample.compile {[ "item" := "^t.*$" ]}))
    Sample.cxUser Sample.cxUser.
Proof.
  destruct (admission_exact Sample.proxyClaims Sample.wRefresh
              Sample.anyRole
              (admissionHandler Sample.proxyClaims Sample.wRefresh
                 Sample.anyRole (omap Sample.compile {[ "item" := "^t.*$" ]}))
              Sample.cxUser Sample.rohith) as [Hiff _].
  - intros m. reflexivity.
  - reflexivity.
  - reflexivity.
  - apply Hiff. split; [|split].
    + right. apply list_elem_of_singleton. reflexivity.
    + intros role Hin. by apply elem_of_nil in Hin.
    + intros claimName expr Hlook.
      change (MatchClaims (config Sample.proxyClaims))
        with ({[ "item" := "^t.*$" ]} : gmap string string) in Hlook.
      apply lookup_singleton_Some in Hlook as [<- <-].
      exists (String.prefix "t"), "test". repeat split.
Defined.

(** X4. The outcome of the loop over the claim matchers does not depend
    on the order in which the map is visited. *)
Theorem rangeClaimMatches_order (r : oauthProxy) (u : userContext)
    (cx : Context) (l1 l2 : list (string * Regexp)) :
  l1 ≡ₚ l2 ->
  rangeClaimMatches r u cx l1 = rangeClaimMatches r u cx l2.
Proof.
  intros Hperm.
  destruct (rangeClaimMatches r u cx l1) as [d1|] eqn:H1,
           (rangeClaimMatches r u cx l2) as [d2|] eqn:H2.
  - apply rangeClaimMatches_denied in H1, H2. congruence.
  - apply rangeClaimMatches_passed in H2. rewrite <- Hperm in H2.
    apply (rangeClaimMatches_passed r u cx) in H2. congruence.
  - apply rangeClaimMatches_passed in H1. rewrite Hperm in H1.
    apply (rangeClaimMatches_passed r u cx) in H1. congruence.
  - reflexivity.
Qed.

Lemma rangeClaimMatches_order_witness :
  rangeClaimMatches Sample.proxy Sample.rohith Sample.cxUser
    [("item", String.prefix "t"); ("found", String.prefix "s")] =
  rangeClaimMatches Sample.proxy Sample.rohith Sample.cxUser
    [("found", String.prefix "s"); ("item", String.prefix "t")].
Proof.
  apply (rangeClaimMatches_order Sample.proxy Sample.rohith Sample.cxUser).
  apply perm_swap.
Defined.

(** X5. Building the admission middleware fails (the panic of
    MustCompile) exactly when some configured claim expression does not
    compile; otherwise there is a handler. *)
Theorem admissionMiddleware_compiles (r : oauthProxy) (w : World)
    (resource : Resource) :
  admissionMiddleware r w resource = None <->
  exists claimName expr,
    MatchClaims (config r) !! claimName = Some expr /\
    regexp_Compile w expr = None.
Proof.
  unfold admissionMiddleware, claimMatches.
  case_decide as Hall; split; try done.
  - intros (claimName & expr & Hexpr & Hnone).
    destruct (Hall claimName expr Hexpr) as [re Hre]. congruence.
  - intros _. apply map_not_Forall in Hall; [|apply _].
    destruct Hall as (claimName & expr & Hexpr & Hnot).
    exists claimName, expr. split; [done|].
    destruct (regexp_Compile w expr); [|done].
    exfalso. apply Hnot. by eexists.
Qed.

(** ** Authentication and admission together *)

(** X6. The admission handler reads the identity from the context and
    panics when there is none; behind the authentication middleware that
    cannot happen: the two together panic only if the rest of the chain
    does. *)
Theorem admission_behind_authentication (r : oauthProxy) (w : World)
    (resource : Resource) (h : HandlerFunc -> HandlerFunc)
    (next : HandlerFunc) (cx : Context) :
  admissionMiddleware r w resource = Some h ->
  (user cx = None -> h next cx = Panicked) /\
  ((forall c, next c <> Panicked) ->
   authenticationMiddleware r w resource (h next) cx <> Panicked).
Proof.
  intros Hmw.
  apply admissionMiddleware_handler in Hmw as (matchers & _ & ->).
  split.
  - intros Hnone. unfold admissionHandler. by rewrite Hnone.
  - intros Hnext.
    destruct (authentication_cases r w resource cx)
      as [[d Hd] | (u & c & _ & Hc & _ & _ & Huser)].
    + by rewrite Hd.
    + rewrite Hc. unfold invoke.
      assert (Hu : exists u', user (emit EvNext c) = Some u').
      { destruct Huser as [Hu | [tok Hu]]; simpl; eauto. }
      destruct Hu as [u' Hu].
      destruct (admissionHandler_cases r w resource matchers
                  (emit EvNext c) u' Hu) as [[Hrej _] | [Hpass _]].
      * by rewrite Hrej.
      * rewrite Hpass. apply Hnext.
Qed.

Lemma admission_behind_authentication_witness :
  admissionHandler Sample.proxy Sample.wRefresh Sample.adminOnly ∅
    Returned (Sample.cx0 ∅ ∅) = Panicked /\
  authenticationMiddleware Sample.proxy Sample.wRefresh Sample.adminOnly
    (admissionHandler Sample.proxy Sample.wRefresh Sample.adminOnly ∅
       Returned) (Sample.cx0 ∅ ∅) <> Panicked.
Proof.
  destruct (admission_behind_authentication Sample.proxy Sample.wRefresh
              Sample.adminOnly
              (admissionHandler Sample.proxy Sample.wRefresh
                 Sample.adminOnly ∅)
              Returned (Sample.cx0 ∅ ∅)) as [Hpanic Hsafe];
    [reflexivity|].
  split; [apply Hpanic; reflexivity | apply Hsafe; discriminate].
Defined.

(** X7. Authentication followed by admission reaches the rest of the
    chain only for a request that carries an identity whose audience,
    roles and claims, as read from the token of the request, satisfy the
    admission rules; this also holds after a silent refresh, where the
    rules are checked against what the expired token said. *)
Theorem pipeline_admits_only_entitled (r : oauthProxy) (w : World)
    (resource : Resource) (h : HandlerFunc -> HandlerFunc)
    (cx c : Context) :
  range_order_ok w ->
  admissionMiddleware r w resource = Some h ->
  hands_over (fun next => authenticationMiddleware r w resource (h next))
    cx c ->
  exists u u',
    getIdentity w (request cx) = Ok u /\
    user c = Some u' /\
    (u' = u \/ exists tok, u' = set_token u tok) /\
    (ClientID (config r) = "" \/ ClientID (config r) ∈ audience u) /\
    (forall role, role ∈ Roles resource -> role ∈ roles u) /\
    (forall claimName expr,
       MatchClaims (config r) !! claimName = Some expr ->
       exists re value,
         regexp_Compile w expr = Some re /\
         claims u !! claimName = Some (JString value) /\
         MatchString re value = true).
Proof.
  intros Hord Hmw Hc.
  apply admissionMiddleware_handler in Hmw as (matchers & Hcm & ->).
  destruct (authentication_cases r w resource cx)
    as [[d Hd] | (u & c0 & Hid & Hc0 & _ & _ & Huser)].
  { exfalso. specialize (Hc (fun _ => Panicked)). simpl in Hc.
    rewrite Hd in Hc. discriminate Hc. }
  assert (Hu' : exists u', user (emit EvNext c0) = Some u' /\
                           (u' = u \/ exists tok, u' = set_token u tok)).
  { destruct Huser as [Hu | [tok Hu]]; simpl; rewrite Hu; eauto. }
  destruct Hu' as (u' & Hu' & Hrel).
  destruct (admissionHandler_exact r w resource matchers
              (emit EvNext c0) u' Hu')
    as [[[Hrej _] _] | (Hpass & Haud & Hroles & Hfa)].
  { exfalso. specialize (Hc (fun _ => Panicked)). simpl in Hc.
    rewrite Hc0 in Hc. unfold invoke at 1 in Hc. rewrite Hrej in Hc.
    discriminate Hc. }
  assert (Hceq : c = emit EvNext c0).
  { apply (hands_over_inj _ _ _ _ Hc). intros next.
    rewrite Hc0. unfold invoke at 1. apply Hpass. }
  assert (Hsame : roles u' = roles u /\ claims u' = claims u /\
                  audience u' = audience u).
  { destruct Hrel as [-> | [tok ->]]; done. }
  destruct Hsame as (Hr & Hcl & Ha).
  exists u, u'. split; [done|]. split; [by rewrite Hceq|].
  split; [done|]. rewrite <- Ha, <- Hr, <- Hcl.
  split; [done|]. split; [done|].
  by apply (claims_ok_iff r w matchers u' Hord Hcm).
Qed.

Lemma pipeline_admits_only_entitled_witness :
  exists u u',
    getIdentity Sample.wRefresh (request (Sample.cx0 ∅ ∅)) = Ok u /\
    user (emit EvNext Sample.cxRefreshed) = Some u' /\
    (u' = u \/ exists tok, u' = set_token u tok) /\
    (ClientID (config Sample.proxyClaims) = "" \/
     ClientID (config Sample.proxyClaims) ∈ audience u) /\
    (forall role, role ∈ Roles Sample.anyRole -> role ∈ roles u) /\
    (forall claimName expr,
       MatchClaims (config Sample.proxyClaims) !! claimName = Some expr ->
       exists re value,
         regexp_Compile Sample.wRefresh expr = Some re /\
         claims u !! claimName = Some (JString value) /\
         MatchString re value = true).
Proof.
  apply (pipeline_admits_only_entitled Sample.proxyClaims Sample.wRefresh
           Sample.anyRole
           (admissionHandler Sample.proxyClaims Sample.wRefresh
              Sample.anyRole (omap Sample.compile {[ "item" := "^t.*$" ]}))
           (Sample.cx0 ∅ ∅)
           (emit EvNext Sample.cxRefreshed)).
  - intros m. reflexivity.
  - reflexivity.
  - intros next. reflexivity.
Defined.

(** ** The redirection URL, further properties *)

Lemma append_assoc (a b c : string) : (a +:+ b) +:+ c = a +:+ b +:+ c.
Proof.
  induction a as [|x a IH]; [reflexivity|].
  change (String x ((a +:+ b) +:+ c) = String x (a +:+ b +:+ c)).
  by rewrite IH.
Qed.

(** X8. A configured RedirectionURL is used as it is, whatever the
    request says; without one, forwarded headers that are present and not
    empty decide scheme and host alone, whatever the TLS state and the
    Host of the request are. *)
Theorem getRedirectionURL_sources (r : oauthProxy) (cx : Context) :
  (RedirectionURL (config r) <> "" ->
   getRedirectionURL r cx = RedirectionURL (config r) +:+ "/oauth/callback")
  /\
  (forall proto host,
     RedirectionURL (config r) = "" ->
     Header (request cx) !! "X-Forwarded-Proto" = Some proto ->
     Header (request cx) !! "X-Forwarded-Host" = Some host ->
     proto <> "" -> host <> "" ->
     getRedirectionURL r cx =
       proto +:+ "://" +:+ host +:+ "/oauth/callback").
Proof.
  unfold getRedirectionURL, Header_Get, defaultTo. split.
  - intros Hset. apply String.eqb_neq in Hset. by rewrite Hset.
  - intros proto host -> -> -> Hp Hh. simpl.
    apply String.eqb_neq in Hp, Hh. rewrite Hp, Hh.
    by rewrite !append_assoc.
Qed.

Lemma getRedirectionURL_sources_witness :
  getRedirectionURL Sample.proxy Scenario.cxForwarded =
    "https://proxy.example.com/oauth/callback".
Proof.
  destruct (getRedirectionURL_sources Sample.proxy Scenario.cxForwarded)
    as [_ Hforwarded].
  apply (Hforwarded "https" "proxy.example.com");
    try reflexivity; discriminate.
Defined.

(** ** The callback handler, further properties *)

(** X9. The callback handler records at most one code exchange, and
    it is the first event it adds; it touches the cookies or the store
    only when token verification is on, a code was given, the exchange
    succeeded and the ID token parsed and verified. *)
Theorem callback_session_needs_verified_token (r : oauthProxy) (w : World)
    (cx : Context) :
  exists evs,
    trace (oauthCallbackHandler r w cx) = (trace cx ++ evs)%list /\
    (evs = [] \/
     exists rest,
       evs = EvCodeExchange (QueryParam (request cx) "code") :: rest /\
       Forall (fun e => forall code, e <> EvCodeExchange code) rest) /\
    (Exists (fun e => touches_session e = true) evs ->
     SkipTokenVerification (config r) = false /\
     QueryParam (request cx) "code" <> "" /\
     exists client resp tok idt,
       getOAuthClient w (getRedirectionURL r cx) = Ok client /\
       exchangeAuthenticationCode w client (QueryParam (request cx) "code")
         = Ok resp /\
       parseToken w (oauth2_IDToken resp) = Ok (tok, idt) /\
       verifyToken w tok = None).
Proof.
  unfold oauthCallbackHandler.
  destruct (SkipTokenVerification (config r)).
  { exists []. rewrite app_nil_r. split; [done|]. split; [by left|].
    intros H. by apply Exists_nil in H. }
  destruct (String.eqb_spec (QueryParam (request cx) "code") "") as [|Hcode].
  { exists []. rewrite app_nil_r. split; [done|]. split; [by left|].
    intros H. by apply Exists_nil in H. }
  destruct (getOAuthClient w (getRedirectionURL r cx)) as [client|].
  2: { exists []. rewrite app_nil_r. split; [done|]. split; [by left|].
       intros H. by apply Exists_nil in H. }
  assert (Hfail : forall d,
             trace d =
               (trace cx ++ [EvCodeExchange (QueryParam (request cx) "code")])
               %list ->
             forall P : Prop,
             exists evs,
               trace d = (trace cx ++ evs)%list /\
               (evs = [] \/
                exists rest,
                  evs = EvCodeExchange (QueryParam (request cx) "code")
                          :: rest /\
                  Forall (fun e => forall code, e <> EvCodeExchange code)
                    rest) /\
               (Exists (fun e => touches_session e = true) evs -> P)).
  { intros d Hd P. eexists. split; [exact Hd|]. split.
    - right. exists []. split; [done | constructor].
    - intros H. apply Exists_cons in H as [H|H]; [discriminate H|].
      by apply Exists_nil in H. }
  simpl.
  destruct (exchangeAuthenticationCode w client
              (QueryParam (request cx) "code")) as [resp|] eqn:Hexch.
  2: { apply Hfail. by rewrite trace_accessForbidden. }
  destruct (parseToken w (oauth2_IDToken resp)) as [[tok idt]|] eqn:Hid.
  2: { apply Hfail. by rewrite trace_accessForbidden. }
  destruct (verifyToken w tok) as [e|] eqn:Hver.
  { apply Hfail. by rewrite trace_accessForbidden. }
  assert (Hgood :
            false = false /\
            QueryParam (request cx) "code" <> "" /\
            exists client0 resp0 tok0 idt0,
              Ok client = Ok client0 /\
              exchangeAuthenticationCode w client0
                (QueryParam (request cx) "code") = Ok resp0 /\
              parseToken w (oauth2_IDToken resp0) = Ok (tok0, idt0) /\
              verifyToken w tok0 = None).
  { split; [done|]. split; [done|]. by exists client, resp, tok, idt. }
  destruct (parseToken w (oauth2_AccessToken resp)) as [[access aid]|];
    destruct (EnableRefreshTokens (config r)
              && negb (oauth2_RefreshToken resp =? "")%string); simpl;
    try destruct (encodeText w (oauth2_RefreshToken resp)
                    (EncryptionKey (config r))) as [enc|];
    try destruct (useStore r);
    try destruct (parseToken w (oauth2_RefreshToken resp)) as [[t ident]|];
    simpl; rewrite <- ?app_assoc; simpl;
    (eexists; split; [reflexivity|]; split;
     [right; eexists; split; [reflexivity|];
      repeat (apply Forall_cons_2; [intros code; discriminate|]);
      apply Forall_nil_2
     | intros _; exact Hgood]).
Qed.

(** X10. When refresh tokens are switched off, or the identity provider
    sent none, a verified callback drops exactly one cookie, the access
    cookie: its value is the session token (the access token if it parses,
    else the ID token) and its lifetime the expiry of that token minus the
    current time; no refresh cookie and no store entry is written. *)
Theorem callback_without_refresh_token (r : oauthProxy) (w : World)
    (cx : Context) (client : Client) (resp : TokenResponse) (tok : JWT)
    (idt : Identity) :
  SkipTokenVerification (config r) = false ->
  QueryParam (request cx) "code" <> "" ->
  getOAuthClient w (getRedirectionURL r cx) = Ok client ->
  exchangeAuthenticationCode w client (QueryParam (request cx) "code")
    = Ok resp ->
  parseToken w (oauth2_IDToken resp) = Ok (tok, idt) ->
  verifyToken w tok = None ->
  EnableRefreshTokens (config r) = false \/ oauth2_RefreshToken resp = "" ->
  oauthCallbackHandler r w cx =
    callbackRedirect w
      (dropAccessTokenCookie (Encode (sessionToken w resp tok))
         (time_Sub (ExpiresAt (sessionIdentity w resp idt)) (time_Now w))
         (emit (EvCodeExchange (QueryParam (request cx) "code")) cx)) /\
  trace (oauthCallbackHandler r w cx) =
    (trace cx ++
     [EvCodeExchange (QueryParam (request cx) "code");
      EvDropAccessTokenCookie (Encode (sessionToken w resp tok))
        (time_Sub (ExpiresAt (sessionIdentity w resp idt)) (time_Now w))])
    %list.
Proof.
  intros Hskip Hcode Hclient Hexch Hid Hver Hnone.
  assert (Hcond : EnableRefreshTokens (config r)
                  && negb (oauth2_RefreshToken resp =? "")%string = false).
  { apply andb_false_iff. destruct Hnone as [-> | ->]; auto. }
  assert (Hrun : oauthCallbackHandler r w cx =
    callbackRedirect w
      (dropAccessTokenCookie (Encode (sessionToken w resp tok))
         (time_Sub (ExpiresAt (sessionIdentity w resp idt)) (time_Now w))
         (emit (EvCodeExchange (QueryParam (request cx) "code")) cx))).
  { unfold oauthCallbackHandler, sessionToken, sessionIdentity.
    apply String.eqb_neq in Hcode.
    rewrite Hskip, Hcode, Hclient. simpl. rewrite Hexch, Hid, Hver.
    by destruct (parseToken w (oauth2_AccessToken resp)) as [[access aid]|];
      rewrite Hcond. }
  split; [exact Hrun|].
  rewrite Hrun, trace_callbackRedirect. simpl. by rewrite <- app_assoc.
Qed.

Lemma callback_without_refresh_token_witness :
  trace (oauthCallbackHandler Scenario.proxyNoRefresh
           (Sample.wValid Sample.parseJWTs) Sample.cxCallback) =
    [EvCodeExchange "abc";
     EvDropAccessTokenCookie (Encode Sample.freshToken) 3000].
Proof.
  apply (callback_without_refresh_token Scenario.proxyNoRefresh
           (Sample.wValid Sample.parseJWTs) Sample.cxCallback
           (OAuth2Client "https://127.0.0.1:3000/oauth/callback")
           Sample.tokens Sample.freshToken
           (mkIdentity (id Sample.rohith) (name Sample.rohith)
              (email Sample.rohith) 5000));
    try reflexivity; try discriminate.
  by left.
Defined.

(** X11. With a session store, a verified callback with a refresh token
    drops the access cookie and writes the encrypted refresh token to the
    store under the session token; no refresh cookie is dropped and the
    refresh token is not parsed. *)
Theorem callback_with_store (r : oauthProxy) (w : World) (cx : Context)
    (client : Client) (resp : TokenResponse) (tok : JWT) (idt : Identity)
    (encrypted : string) :
  SkipTokenVerification (config r) = false ->
  QueryParam (request cx) "code" <> "" ->
  getOAuthClient w (getRedirectionURL r cx) = Ok client ->
  exchangeAuthenticationCode w client (QueryParam (request cx) "code")
    = Ok resp ->
  parseToken w (oauth2_IDToken resp) = Ok (tok, idt) ->
  verifyToken w tok = None ->
  EnableRefreshTokens (config r) = true ->
  oauth2_RefreshToken resp <> "" ->
  encodeText w (oauth2_RefreshToken resp) (EncryptionKey (config r))
    = Ok encrypted ->
  useStore r = true ->
  trace (oauthCallbackHandler r w cx) =
    (trace cx ++
     [EvCodeExchange (QueryParam (request cx) "code");
      EvDropAccessTokenCookie (Encode (sessionToken w resp tok))
        (getAccessCookieExpiration w (sessionToken w resp tok)
           (oauth2_RefreshToken resp));
      EvStorePut (sessionToken w resp tok) encrypted])%list /\
  response (oauthCallbackHandler r w cx) =
    response (callbackRedirect w cx).
Proof.
  intros Hskip Hcode Hclient Hexch Hid Hver Hen Hrefresh Henc Hstore.
  unfold oauthCallbackHandler, sessionToken.
  apply String.eqb_neq in Hcode, Hrefresh.
  rewrite Hskip, Hcode, Hclient. simpl.
  rewrite Hexch, Hid, Hver, Hen, Hrefresh. simpl.
  destruct (parseToken w (oauth2_AccessToken resp)) as [[access aid]|];
    rewrite Henc, Hstore; simpl; by rewrite <- !app_assoc.
Qed.

Lemma callback_with_store_witness :
  trace (oauthCallbackHandler Scenario.proxyStore
           (Sample.wValid Sample.parseJWTs) Sample.cxCallback) =
    [EvCodeExchange "abc";
     EvDropAccessTokenCookie (Encode Sample.freshToken) 300000000000;
     EvStorePut Sample.freshToken "encrypted"].
Proof.
  apply (callback_with_store Scenario.proxyStore
           (Sample.wValid Sample.parseJWTs) Sample.cxCallback
           (OAuth2Client "https://127.0.0.1:3000/oauth/callback")
           Sample.tokens Sample.freshToken
           (mkIdentity (id Sample.rohith) (name Sample.rohith)
              (email Sample.rohith) 5000)
           "encrypted");
    try reflexivity; discriminate.
Defined.

(** X12. How the callback fails.  Without a code it answers 400 and with
    no OAuth client 500, in both cases before any exchange; a failed
    exchange, an ID token that does not parse and one that does not verify
    end in accessForbidden after the one exchange; and when the refresh
    token cannot be encrypted it answers 500 after the exchange, without
    having dropped any cookie. *)
Theorem callback_failures (r : oauthProxy) (w : World) (cx : Context) :
  SkipTokenVerification (config r) = false ->
  (QueryParam (request cx) "code" = "" ->
   oauthCallbackHandler r w cx = NoContent StatusBadRequest cx) /\
  (QueryParam (request cx) "code" <> "" ->
   (forall e,
      getOAuthClient w (getRedirectionURL r cx) = Err e ->
      oauthCallbackHandler r w cx = NoContent StatusInternalServerError cx)
   /\
   (forall client,
      getOAuthClient w (getRedirectionURL r cx) = Ok client ->
      ((exists e, exchangeAuthenticationCode w client
                    (QueryParam (request cx) "code") = Err e) \/
       (exists resp,
          exchangeAuthenticationCode w client
            (QueryParam (request cx) "code") = Ok resp /\
          ((exists e, parseToken w (oauth2_IDToken resp) = Err e) \/
           (exists tok idt e,
              parseToken w (oauth2_IDToken resp) = Ok (tok, idt) /\
              verifyToken w tok = Some e))) ->
       oauthCallbackHandler r w cx =
         accessForbidden r
           (emit (EvCodeExchange (QueryParam (request cx) "code")) cx)) /\
      (forall resp tok idt e,
         exchangeAuthenticationCode w client
           (QueryParam (request cx) "code") = Ok resp ->
         parseToken w (oauth2_IDToken resp) = Ok (tok, idt) ->
         verifyToken w tok = None ->
         EnableRefreshTokens (config r) = true ->
         oauth2_RefreshToken resp <> "" ->
         encodeText w (oauth2_RefreshToken resp) (EncryptionKey (config r))
           = Err e ->
         oauthCallbackHandler r w cx =
           NoContent StatusInternalServerError
             (emit (EvCodeExchange (QueryParam (request cx) "code")) cx)))).
Proof.
  intros Hskip. unfold oauthCallbackHandler. rewrite Hskip. split.
  - by intros ->.
  - intros Hcode. apply String.eqb_neq in Hcode. rewrite Hcode. split.
    + by intros e ->.
    + intros client ->. simpl. split.
      * intros [[e ->] | (resp & -> & [[e ->] | (tok & idt & e & -> & ->)])];
          reflexivity.
      * intros resp tok idt e -> -> -> -> Hrefresh ->.
        apply String.eqb_neq in Hrefresh. rewrite Hrefresh. simpl.
        by destruct (parseToken w (oauth2_AccessToken resp)) as [[a i]|].
Qed.

Lemma callback_failures_witness :
  oauthCallbackHandler Sample.proxy Scenario.wNoKey Sample.cxCallback =
    NoContent StatusInternalServerError
      (emit (EvCodeExchange "abc") Sample.cxCallback).
Proof.
  destruct (callback_failures Sample.proxy Scenario.wNoKey Sample.cxCallback)
    as [_ Hcode]; [reflexivity|].
  destruct Hcode as [_ Hclient]; [discriminate|].
  destruct (Hclient (OAuth2Client "https://127.0.0.1:3000/oauth/callback"))
    as [_ Hencrypt]; [reflexivity|].
  apply (Hencrypt Sample.tokens Sample.freshToken
           (mkIdentity (id Sample.rohith) (name Sample.rohith)
              (email Sample.rohith) 5000)
           (ErrorString "crypto/aes: invalid key size 5"));
    try reflexivity; discriminate.
Defined.

(** ** The login handler, further properties *)

(** X13. The login handler attempts a password grant only when it is
    enabled, both credentials are given and an OAuth client exists; and it
    drops the access cookie only after the grant succeeded and the access
    token was decoded, in which case the grant and that one cookie, with
    the raw access token and its remaining lifetime, are all it records. *)
Theorem login_session_only_on_success (r : oauthProxy) (w : World)
    (cx : Context) :
  exists evs,
    trace (loginHandler r w cx) = (trace cx ++ evs)%list /\
    (EnableLoginHandler (config r) = false \/
     PostFormValue (request cx) "username" = "" \/
     PostFormValue (request cx) "password" = "" \/
     (exists e, OAuthClient w = Err e) ->
     evs = []) /\
    (Exists (fun e => touches_session e = true) evs ->
     exists client tok t idt,
       EnableLoginHandler (config r) = true /\
       OAuthClient w = Ok client /\
       UserCredsToken w client (PostFormValue (request cx) "username")
         (PostFormValue (request cx) "password") = Ok tok /\
       parseToken w (oauth2_AccessToken tok) = Ok (t, idt) /\
       evs = [EvPasswordGrant (PostFormValue (request cx) "username")
                (PostFormValue (request cx) "password");
              EvDropAccessTokenCookie (oauth2_AccessToken tok)
                (time_Sub (ExpiresAt idt) (time_Now w))]).
Proof.
  assert (Hnil : forall P : Prop,
             Exists (fun e => touches_session e = true) [] -> P).
  { intros P H. by apply Exists_nil in H. }
  assert (Hgrant : forall (P : Prop) u p,
             Exists (fun e => touches_session e = true)
               [EvPasswordGrant u p] -> P).
  { intros P u p H. apply Exists_cons in H as [H|H]; [discriminate H|].
    by apply Exists_nil in H. }
  unfold loginHandler, loginAttempt.
  destruct (EnableLoginHandler (config r)); simpl.
  2: { exists []. rewrite app_nil_r. split; [done|]. split; [done|].
       apply Hnil. }
  destruct (String.eqb_spec (PostFormValue (request cx) "username") "")
    as [Hu|Hu]; simpl.
  { exists []. rewrite app_nil_r. split; [done|]. split; [done|].
    apply Hnil. }
  destruct (String.eqb_spec (PostFormValue (request cx) "password") "")
    as [Hp|Hp]; simpl.
  { exists []. rewrite app_nil_r. split; [done|]. split; [done|].
    apply Hnil. }
  destruct (OAuthClient w) as [client|e0]; simpl.
  2: { exists []. rewrite app_nil_r. split; [done|]. split; [done|].
       apply Hnil. }
  assert (Hattempted :
            true = false \/
            PostFormValue (request cx) "username" = "" \/
            PostFormValue (request cx) "password" = "" \/
            (exists e, Ok client = Err e) ->
            forall evs : list Event, evs = []).
  { intros [H | [H | [H | [e H]]]]; done. }
  destruct (UserCredsToken w client (PostFormValue (request cx) "username")
              (PostFormValue (request cx) "password")) as [tok|e1] eqn:Hg.
  2: { eexists. split; [|split; [intros H; by apply Hattempted | apply Hgrant]].
       by destruct (String.prefix ErrorInvalidGrant (Error w e1)). }
  destruct (parseToken w (oauth2_AccessToken tok)) as [[t idt]|e2] eqn:Hparse.
  2: { eexists. split; [done|].
       split; [intros H; by apply Hattempted | apply Hgrant]. }
  eexists. split; [simpl; by rewrite <- app_assoc|].
  split; [intros H; by apply Hattempted|].
  intros _. by exists client, tok, t, idt.
Qed.

(** ** The header injector *)

Lemma Header_Set_rest lib k v req :
  Host (Header_Set lib k v req) = Host req /\
  RequestURI (Header_Set lib k v req) = RequestURI req /\
  Query (Header_Set lib k v req) = Query req /\
  PostForm (Header_Set lib k v req) = PostForm req /\
  TLS (Header_Set lib k v req) = TLS req.
Proof. done. Qed.

Lemma setConfigHeaders_snoc lib l kv req :
  setConfigHeaders lib (l ++ [kv]) req =
  Header_Set lib kv.1 kv.2 (setConfigHeaders lib l req).
Proof. unfold setConfigHeaders. by rewrite foldl_app. Qed.

(** A run of header writes leaves a key alone that none of them files
    under. *)
Lemma setConfigHeaders_miss lib l req K :
  (forall kv, kv ∈ l -> CanonicalMIMEHeaderKey lib kv.1 <> K) ->
  Header (setConfigHeaders lib l req) !! K = Header req !! K.
Proof.
  induction l as [|kv l IH] using rev_ind; intros Hmiss; [done|].
  rewrite setConfigHeaders_snoc. simpl.
  rewrite lookup_insert_ne.
  - apply IH. intros kv' Hin. apply Hmiss, elem_of_app. by left.
  - apply Hmiss, elem_of_app. right. by apply list_elem_of_singleton.
Qed.

(** A key that a run of header writes files under holds the value
    written, when all writes under that key agree. *)
Lemma setConfigHeaders_hit lib l req k v :
  (k, v) ∈ l ->
  (forall kv, kv ∈ l ->
     CanonicalMIMEHeaderKey lib kv.1 = CanonicalMIMEHeaderKey lib k ->
     kv.2 = v) ->
  Header (setConfigHeaders lib l req) !! CanonicalMIMEHeaderKey lib k = Some v.
Proof.
  induction l as [|kv l IH] using rev_ind; intros Hin Hagree.
  { by apply elem_of_nil in Hin. }
  rewrite setConfigHeaders_snoc. simpl.
  destruct (decide (CanonicalMIMEHeaderKey lib kv.1 =
                    CanonicalMIMEHeaderKey lib k)) as [Heq | Hne].
  - rewrite Heq, lookup_insert_eq. f_equal.
    apply Hagree; [|done]. apply elem_of_app. right.
    by apply list_elem_of_singleton.
  - rewrite lookup_insert_ne by done.
    apply IH.
    + apply elem_of_app in Hin as [Hin | Hin]; [done|].
      apply list_elem_of_singleton in Hin. subst kv. done.
    + intros kv' Hin' Hk. apply Hagree; [|done]. apply elem_of_app. by left.
Qed.

Lemma setConfigHeaders_rest lib l req :
  Host (setConfigHeaders lib l req) = Host req /\
  RequestURI (setConfigHeaders lib l req) = RequestURI req /\
  Query (setConfigHeaders lib l req) = Query req /\
  PostForm (setConfigHeaders lib l req) = PostForm req /\
  TLS (setConfigHeaders lib l req) = TLS req.
Proof.
  induction l as [|kv l IH] using rev_ind; [done|].
  by rewrite setConfigHeaders_snoc.
Qed.

Lemma setCustomClaims_snoc lib u cs ch req :
  setCustomClaims lib u (cs ++ [ch]) req =
  match claims u !! ch.1 with
  | Some claim =>
    Header_Set lib ch.2 (Sprintf_v lib claim) (setCustomClaims lib u cs req)
  | None => setCustomClaims lib u cs req
  end.
Proof. unfold setCustomClaims. by rewrite foldl_app. Qed.

Lemma setCustomClaims_miss lib u cs req K :
  (forall ch claim,
     ch ∈ cs -> claims u !! ch.1 = Some claim ->
     CanonicalMIMEHeaderKey lib ch.2 <> K) ->
  Header (setCustomClaims lib u cs req) !! K = Header req !! K.
Proof.
  induction cs as [|ch cs IH] using rev_ind; intros Hmiss; [done|].
  rewrite setCustomClaims_snoc.
  assert (Hrest : Header (setCustomClaims lib u cs req) !! K = Header req !! K).
  { apply IH. intros ch' claim Hin. apply Hmiss, elem_of_app. by left. }
  destruct (claims u !! ch.1) as [claim|] eqn:Hclaim; [|done].
  simpl. rewrite lookup_insert_ne; [done|].
  apply (Hmiss ch claim); [|done]. apply elem_of_app. right.
  by apply list_elem_of_singleton.
Qed.

Lemma setCustomClaims_hit lib u cs req c hd v :
  (c, hd) ∈ cs ->
  claims u !! c = Some v ->
  (forall ch claim,
     ch ∈ cs -> claims u !! ch.1 = Some claim ->
     CanonicalMIMEHeaderKey lib ch.2 = CanonicalMIMEHeaderKey lib hd ->
     Sprintf_v lib claim = Sprintf_v lib v) ->
  Header (setCustomClaims lib u cs req) !! CanonicalMIMEHeaderKey lib hd =
    Some (Sprintf_v lib v).
Proof.
  induction cs as [|ch cs IH] using rev_ind; intros Hin Hv Hagree.
  { by apply elem_of_nil in Hin. }
  rewrite setCustomClaims_snoc.
  assert (Hlast : ch ∈ (cs ++ [ch])%list).
  { apply elem_of_app. right. by apply list_elem_of_singleton. }
  assert (Hearlier : (c, hd) ∈ cs ->
            Header (setCustomClaims lib u cs req)
              !! CanonicalMIMEHeaderKey lib hd = Some (Sprintf_v lib v)).
  { intros Hin'. apply IH; [done | done |].
    intros ch' claim Hin'' Hc Hk. apply (Hagree ch' claim); [|done|done].
    apply elem_of_app. by left. }
  destruct (claims u !! ch.1) as [claim|] eqn:Hclaim.
  - simpl.
    destruct (decide (CanonicalMIMEHeaderKey lib ch.2 =
                      CanonicalMIMEHeaderKey lib hd)) as [Heq | Hne].
    + rewrite Heq, lookup_insert_eq. f_equal. by apply (Hagree ch claim).
    + rewrite lookup_insert_ne by done. apply Hearlier.
      apply elem_of_app in Hin as [Hin | Hin]; [done|].
      apply list_elem_of_singleton in Hin. subst ch. done.
  - apply Hearlier.
    apply elem_of_app in Hin as [Hin | Hin]; [done|].
    apply list_elem_of_singleton in Hin. subst ch. simpl in Hclaim.
    congruence.
Qed.

Lemma setCustomClaims_rest lib u cs req :
  Host (setCustomClaims lib u cs req) = Host req /\
  RequestURI (setCustomClaims lib u cs req) = RequestURI req /\
  Query (setCustomClaims lib u cs req) = Query req /\
  PostForm (setCustomClaims lib u cs req) = PostForm req /\
  TLS (setCustomClaims lib u cs req) = TLS req.
Proof.
  induction cs as [|ch cs IH] using rev_ind; [done|].
  rewrite setCustomClaims_snoc. by destruct (claims u !! ch.1).
Qed.

(** The custom claims map holds every configured claim name, with the
    header made from it, and nothing else. *)
Lemma customClaims_lookup lib custom c hd :
  customClaims lib custom !! c = Some hd <->
  c ∈ custom /\ hd = "X-Auth-" +:+ toHeader lib c.
Proof.
  unfold customClaims.
  induction custom as [|x custom IH] using rev_ind; simpl.
  - rewrite lookup_empty. split; [done|]. intros [Hin _].
    by apply elem_of_nil in Hin.
  - rewrite foldl_app. simpl. rewrite elem_of_app, list_elem_of_singleton.
    destruct (decide (x = c)) as [-> | Hne].
    + rewrite lookup_insert_eq. split.
      * intros [= <-]. split; [by right | done].
      * by intros [_ ->].
    + rewrite lookup_insert_ne by done. rewrite IH. split.
      * intros [Hin ->]. split; [by left | done].
      * intros [[Hin | ->] ->]; done.
Qed.

Lemma range_customClaims_elem lib custom c hd :
  range_maps_ok lib ->
  (c, hd) ∈ range_customClaims lib (customClaims lib custom) <->
  c ∈ custom /\ hd = "X-Auth-" +:+ toHeader lib c.
Proof.
  intros [_ Hord]. rewrite (Hord (customClaims lib custom)).
  rewrite elem_of_map_to_list. apply customClaims_lookup.
Qed.

Lemma range_Headers_elem lib (m : gmap string string) k v :
  range_maps_ok lib ->
  (k, v) ∈ range_Headers lib m <-> m !! k = Some v.
Proof. intros [Hord _]. rewrite (Hord m). apply elem_of_map_to_list. Qed.

Lemma headersMiddleware_context more lib custom cx :
  exists req,
    hands_over (headersMiddleware more lib custom) cx (set_request cx req) /\
    req =
      match user cx with
      | None =>
        setConfigHeaders lib (range_Headers lib (Headers more)) (request cx)
      | Some u =>
        setCustomClaims lib u
          (range_customClaims lib (customClaims lib custom))
          ((if EnableAuthorizationHeader more
            then Header_Set lib "Authorization"
                   ("Bearer " +:+ Encode (token u))
            else fun rq => rq)
             (setIdentityHeaders lib u
                (setConfigHeaders lib (range_Headers lib (Headers more))
                   (request cx))))
      end.
Proof.
  eexists. split; [intros next; reflexivity|].
  destruct (user cx); [|done]. by destruct (EnableAuthorizationHeader more).
Qed.

(** X14. On a request without identity the header injector never
    answers itself and changes nothing but request headers: it files the
    configured headers and leaves every other header as the client sent
    it, the identity headers included. *)
Theorem headers_without_identity (more : ConfigMore) (lib : Library)
    (custom : list string) (cx : Context) :
  range_maps_ok lib ->
  user cx = None ->
  exists c,
    hands_over (headersMiddleware more lib custom) cx c /\
    user c = None /\ response c = response cx /\ trace c = trace cx /\
    Host (request c) = Host (request cx) /\
    RequestURI (request c) = RequestURI (request cx) /\
    Query (request c) = Query (request cx) /\
    PostForm (request c) = PostForm (request cx) /\
    TLS (request c) = TLS (request cx) /\
    (forall K,
       (forall k v, Headers more !! k = Some v ->
                    CanonicalMIMEHeaderKey lib k <> K) ->
       Header (request c) !! K = Header (request cx) !! K) /\
    (forall k v,
       Headers more !! k = Some v ->
       (forall k' v', Headers more !! k' = Some v' ->
          CanonicalMIMEHeaderKey lib k' = CanonicalMIMEHeaderKey lib k ->
          v' = v) ->
       Header (request c) !! CanonicalMIMEHeaderKey lib k = Some v).
Proof.
  intros Hord Hnone.
  destruct (headersMiddleware_context more lib custom cx) as (req & Hc & ->).
  rewrite Hnone in Hc. eexists. split; [exact Hc|]. simpl.
  pose proof (setConfigHeaders_rest lib (range_Headers lib (Headers more))
                (request cx)) as (? & ? & ? & ? & ?).
  repeat split; try done.
  - intros K Hmiss. apply setConfigHeaders_miss.
    intros [k v] Hin. apply (range_Headers_elem lib _ k v Hord) in Hin.
    by apply (Hmiss k v).
  - intros k v Hk Hagree. apply setConfigHeaders_hit.
    + by apply range_Headers_elem.
    + intros [k' v'] Hin Heq.
      apply (range_Headers_elem lib _ k' v' Hord) in Hin.
      by apply (Hagree k' v').
Qed.

Lemma headers_without_identity_witness :
  exists c,
    hands_over (headersMiddleware Scenario.more Scenario.lib ["given_name"])
      Scenario.cxSpoofed c /\
    Header (request c) !! "X-Auth-Email" = Some "admin@example.com" /\
    Header (request c) !! "X-Proxy" = Some "keycloak".
Proof.
  destruct (headers_without_identity Scenario.more Scenario.lib
              ["given_name"] Scenario.cxSpoofed)
    as (c & Hc & _ & _ & _ & _ & _ & _ & _ & _ & Hkeep & Hset).
  - split; intros m; reflexivity.
  - reflexivity.
  - exists c. split; [exact Hc|]. split.
    + rewrite (Hkeep "X-Auth-Email"); [reflexivity|].
      intros k v Hk.
      change (Headers Scenario.more)
        with ({[ "X-Proxy" := "keycloak" ]} : gmap string string) in Hk.
      apply lookup_singleton_Some in Hk as [<- _]. discriminate.
    + apply (Hset "X-Proxy" "keycloak"); [reflexivity|].
      intros k' v' Hk _.
      change (Headers Scenario.more)
        with ({[ "X-Proxy" := "keycloak" ]} : gmap string string) in Hk.
      by apply lookup_singleton_Some in Hk as [_ <-].
Defined.

(** The identity headers are written one after another; a key that
    none of them is filed under is left alone. *)
Lemma setIdentityHeaders_miss lib u req K :
  K ∉ CanonicalMIMEHeaderKey lib <$> identityHeaderNames ->
  Header (setIdentityHeaders lib u req) !! K = Header req !! K.
Proof.
  unfold identityHeaderNames. simpl. rewrite !not_elem_of_cons.
  intros (H1 & H2 & H3 & H4 & H5 & H6 & H7 & _).
  unfold setIdentityHeaders. simpl.
  by rewrite !lookup_insert_ne by done.
Qed.

(** X15. On a request with an identity, and when the eight header names
    are filed under different keys that no forwarded custom claim shares,
    the upstream request carries the identity in X-Auth-Email,
    X-Auth-ExpiresIn, X-Auth-Roles (comma-joined), X-Auth-Subject,
    X-Auth-Token, X-Auth-Userid and X-Auth-Username, and the bearer token
    in Authorization when that is enabled, whatever the client sent under
    these names and whatever the configured headers say. *)
Theorem identity_headers_set (more : ConfigMore) (lib : Library)
    (custom : list string) (cx : Context) (u : userContext) :
  range_maps_ok lib ->
  user cx = Some u ->
  NoDup (CanonicalMIMEHeaderKey lib <$>
           ("Authorization" :: identityHeaderNames)) ->
  (forall c, c ∈ custom -> is_Some (claims u !! c) ->
     CanonicalMIMEHeaderKey lib ("X-Auth-" +:+ toHeader lib c) ∉
       CanonicalMIMEHeaderKey lib <$>
         ("Authorization" :: identityHeaderNames)) ->
  exists c,
    hands_over (headersMiddleware more lib custom) cx c /\
    Header (request c) !! CanonicalMIMEHeaderKey lib "X-Auth-Email"
      = Some (email u) /\
    Header (request c) !! CanonicalMIMEHeaderKey lib "X-Auth-ExpiresIn"
      = Some (Time_String lib (expiresAt u)) /\
    Header (request c) !! CanonicalMIMEHeaderKey lib "X-Auth-Roles"
      = Some (String.concat "," (roles u)) /\
    Header (request c) !! CanonicalMIMEHeaderKey lib "X-Auth-Subject"
      = Some (id u) /\
    Header (request c) !! CanonicalMIMEHeaderKey lib "X-Auth-Token"
      = Some (Encode (token u)) /\
    Header (request c) !! CanonicalMIMEHeaderKey lib "X-Auth-Userid"
      = Some (name u) /\
    Header (request c) !! CanonicalMIMEHeaderKey lib "X-Auth-Username"
      = Some (name u) /\
    (EnableAuthorizationHeader more = true ->
     Header (request c) !! CanonicalMIMEHeaderKey lib "Authorization"
       = Some ("Bearer " +:+ Encode (token u))).
Proof.
  intros Hord Hu Hdup Hcustom.
  destruct (headersMiddleware_context more lib custom cx) as (req & Hc & ->).
  rewrite Hu in Hc. eexists. split; [exact Hc|]. simpl.
  assert (Hclaims : forall K,
            K ∈ CanonicalMIMEHeaderKey lib <$>
                  ("Authorization" :: identityHeaderNames) ->
            forall rq,
              Header (setCustomClaims lib u
                        (range_customClaims lib (customClaims lib custom)) rq)
                !! K = Header rq !! K).
  { intros K HK rq. apply setCustomClaims_miss.
    intros [c hd] claim Hin Hclaim Heq. simpl in Hclaim, Heq. subst K.
    apply (range_customClaims_elem lib custom c hd Hord) in Hin as [Hin ->].
    by apply (Hcustom c Hin (mk_is_Some _ _ Hclaim)). }
  unfold identityHeaderNames in *. simpl in Hdup, Hclaims.
  apply NoDup_cons in Hdup as [Ha Hdup]. rewrite !not_elem_of_cons in Ha.
  destruct Ha as (Ha1 & Ha2 & Ha3 & Ha4 & Ha5 & Ha6 & Ha7 & _).
  apply NoDup_cons in Hdup as [H1 Hdup]. rewrite !not_elem_of_cons in H1.
  destruct H1 as (H12 & H13 & H14 & H15 & H16 & H17 & _).
  apply NoDup_cons in Hdup as [H2 Hdup]. rewrite !not_elem_of_cons in H2.
  destruct H2 as (H23 & H24 & H25 & H26 & H27 & _).
  apply NoDup_cons in Hdup as [H3 Hdup]. rewrite !not_elem_of_cons in H3.
  destruct H3 as (H34 & H35 & H36 & H37 & _).
  apply NoDup_cons in Hdup as [H4 Hdup]. rewrite !not_elem_of_cons in H4.
  destruct H4 as (H45 & H46 & H47 & _).
  apply NoDup_cons in Hdup as [H5 Hdup]. rewrite !not_elem_of_cons in H5.
  destruct H5 as (H56 & H57 & _).
  apply NoDup_cons in Hdup as [H6 _]. rewrite !not_elem_of_cons in H6.
  destruct H6 as (H67 & _).
  assert (Hauth : forall K rq,
            CanonicalMIMEHeaderKey lib "Authorization" <> K ->
            Header ((if EnableAuthorizationHeader more
                     then Header_Set lib "Authorization"
                            ("Bearer " +:+ Encode (token u))
                     else fun rq => rq) rq) !! K = Header rq !! K).
  { intros K rq HK. destruct (EnableAuthorizationHeader more); [|done].
    simpl. by rewrite lookup_insert_ne. }
  repeat split.
  1-7: rewrite Hclaims by (rewrite !elem_of_cons; tauto);
       rewrite Hauth by done;
       unfold setIdentityHeaders; simpl;
       rewrite ?lookup_insert_ne by done; apply lookup_insert_eq.
  intros Hen. rewrite Hclaims by (rewrite !elem_of_cons; tauto).
  rewrite Hen. simpl. apply lookup_insert_eq.
Qed.

Lemma identity_headers_set_witness :
  exists c,
    hands_over (headersMiddleware Scenario.more Scenario.lib ["item"])
      (set_user Scenario.cxSpoofed Sample.rohith) c /\
    Header (request c) !! "X-Auth-Email" = Some "gambol99@gmail.com" /\
    Header (request c) !! "X-Auth-Roles" = Some "user".
Proof.
  destruct (identity_headers_set Scenario.more Scenario.lib ["item"]
              (set_user Scenario.cxSpoofed Sample.rohith) Sample.rohith)
    as (c & Hc & Hemail & _ & Hroles & _).
  - split; intros m; reflexivity.
  - reflexivity.
  - apply (bool_decide_unpack _). vm_compute. exact I.
  - intros c Hin _. apply list_elem_of_singleton in Hin as ->.
    apply (bool_decide_unpack _). vm_compute. exact I.
  - exists c. split; [exact Hc|]. split; [exact Hemail | exact Hroles].
Defined.

(** X16. A configured custom claim that the identity has is forwarded
    under X-Auth- followed by the header form of its name, as the claim's
    printed value, provided no other forwarded custom claim is filed under
    the same key; this is the last write, so it wins over an identity
    header of that name. *)
Theorem custom_claim_forwarded (more : ConfigMore) (lib : Library)
    (custom : list string) (cx : Context) (u : userContext)
    (claimName : string) (v : json) :
  range_maps_ok lib ->
  user cx = Some u ->
  claimName ∈ custom ->
  claims u !! claimName = Some v ->
  (forall c', c' ∈ custom -> is_Some (claims u !! c') ->
     CanonicalMIMEHeaderKey lib ("X-Auth-" +:+ toHeader lib c') =
     CanonicalMIMEHeaderKey lib ("X-Auth-" +:+ toHeader lib claimName) ->
     c' = claimName) ->
  exists c,
    hands_over (headersMiddleware more lib custom) cx c /\
    Header (request c)
      !! CanonicalMIMEHeaderKey lib ("X-Auth-" +:+ toHeader lib claimName)
      = Some (Sprintf_v lib v).
Proof.
  intros Hord Hu Hin Hv Honly.
  destruct (headersMiddleware_context more lib custom cx) as (req & Hc & ->).
  rewrite Hu in Hc. eexists. split; [exact Hc|]. simpl.
  apply setCustomClaims_hit with claimName.
  - by apply range_customClaims_elem.
  - done.
  - intros [c' hd'] claim Hin' Hclaim Heq. simpl in *.
    apply (range_customClaims_elem lib custom c' hd' Hord) in Hin'
      as [Hin' ->].
    assert (c' = claimName) as ->
      by (apply Honly; [done | by eexists | done]).
    congruence.
Qed.

Lemma custom_claim_forwarded_witness :
  exists c,
    hands_over (headersMiddleware Scenario.more Scenario.lib ["item"])
      (set_user Scenario.cxSpoofed Sample.rohith) c /\
    Header (request c) !! "X-Auth-item" = Some "test".
Proof.
  apply (custom_claim_forwarded Scenario.more Scenario.lib ["item"]
           (set_user Scenario.cxSpoofed Sample.rohith) Sample.rohith
           "item" (JString "test")).
  - split; intros m; reflexivity.
  - reflexivity.
  - apply list_elem_of_singleton. reflexivity.
  - reflexivity.
  - intros c' Hin _ _. by apply list_elem_of_singleton in Hin.
Defined.

(** X17. The header injector never answers a request itself and
    changes nothing but its headers; with an identity, a header that is
    neither a configured one, nor an identity header, nor Authorization
    when that is enabled, nor the header of a custom claim the identity
    has, reaches the upstream as the client sent it. *)
Theorem headers_frame (more : ConfigMore) (lib : Library)
    (custom : list string) (cx : Context) (u : userContext) :
  range_maps_ok lib ->
  user cx = Some u ->
  exists c,
    hands_over (headersMiddleware more lib custom) cx c /\
    user c = user cx /\ response c = response cx /\ trace c = trace cx /\
    Host (request c) = Host (request cx) /\
    RequestURI (request c) = RequestURI (request cx) /\
    Query (request c) = Query (request cx) /\
    PostForm (request c) = PostForm (request cx) /\
    TLS (request c) = TLS (request cx) /\
    (forall K,
       (forall k v, Headers more !! k = Some v ->
                    CanonicalMIMEHeaderKey lib k <> K) ->
       K ∉ CanonicalMIMEHeaderKey lib <$> identityHeaderNames ->
       (EnableAuthorizationHeader more = true ->
        CanonicalMIMEHeaderKey lib "Authorization" <> K) ->
       (forall c', c' ∈ custom -> is_Some (claims u !! c') ->
          CanonicalMIMEHeaderKey lib ("X-Auth-" +:+ toHeader lib c') <> K) ->
       Header (request c) !! K = Header (request cx) !! K).
Proof.
  intros Hord Hu.
  destruct (headersMiddleware_context more lib custom cx) as (req & Hc & ->).
  rewrite Hu in Hc. eexists. split; [exact Hc|]. simpl.
  pose proof (setConfigHeaders_rest lib (range_Headers lib (Headers more))
                (request cx)) as (E1 & E2 & E3 & E4 & E5).
  split; [done|]. split; [done|]. split; [done|].
  assert (Hrest : forall rq,
            let rq' := setCustomClaims lib u
                         (range_customClaims lib (customClaims lib custom))
                         ((if EnableAuthorizationHeader more
                           then Header_Set lib "Authorization"
                                  ("Bearer " +:+ Encode (token u))
                           else fun rq => rq)
                            (setIdentityHeaders lib u rq)) in
            Host rq' = Host rq /\ RequestURI rq' = RequestURI rq /\
            Query rq' = Query rq /\ PostForm rq' = PostForm rq /\
            TLS rq' = TLS rq).
  { intros rq rq'. subst rq'.
    pose proof (setCustomClaims_rest lib u
                  (range_customClaims lib (customClaims lib custom))
                  ((if EnableAuthorizationHeader more
                    then Header_Set lib "Authorization"
                           ("Bearer " +:+ Encode (token u))
                    else fun rq => rq) (setIdentityHeaders lib u rq)))
      as (F1 & F2 & F3 & F4 & F5).
    rewrite F1, F2, F3, F4, F5.
    by destruct (EnableAuthorizationHeader more). }
  destruct (Hrest (setConfigHeaders lib (range_Headers lib (Headers more))
                     (request cx))) as (G1 & G2 & G3 & G4 & G5).
  rewrite G1, G2, G3, G4, G5.
  split; [done|]. split; [done|]. split; [done|]. split; [done|].
  split; [done|].
  intros K Hconfig Hidentity Hauth Hcustom.
  rewrite setCustomClaims_miss.
  2: { intros [c' hd'] claim Hin Hclaim. simpl in *.
       apply (range_customClaims_elem lib custom c' hd' Hord) in Hin
         as [Hin ->].
       apply Hcustom; [done | by eexists]. }
  assert (Hstep : Header ((if EnableAuthorizationHeader more
                           then Header_Set lib "Authorization"
                                  ("Bearer " +:+ Encode (token u))
                           else fun rq => rq)
                            (setIdentityHeaders lib u
                               (setConfigHeaders lib
                                  (range_Headers lib (Headers more))
                                  (request cx)))) !! K =
                  Header (setIdentityHeaders lib u
                            (setConfigHeaders lib
                               (range_Headers lib (Headers more))
                               (request cx))) !! K).
  { destruct (EnableAuthorizationHeader more); [|done].
    simpl. rewrite lookup_insert_ne; [done | by apply Hauth]. }
  rewrite Hstep, setIdentityHeaders_miss by done.
  apply setConfigHeaders_miss.
  intros [k v] Hin. apply (range_Headers_elem lib _ k v Hord) in Hin.
  by apply (Hconfig k v).
Qed.

Lemma headers_frame_witness :
  exists c,
    hands_over (headersMiddleware Scenario.more Scenario.lib ["item"])
      (set_user Scenario.cxSpoofed Sample.rohith) c /\
    Header (request c) !! "Authorization" = None.
Proof.
  destruct (headers_frame Scenario.more Scenario.lib ["item"]
              (set_user Scenario.cxSpoofed Sample.rohith) Sample.rohith)
    as (c & Hc & _ & _ & _ & _ & _ & _ & _ & _ & Hkeep).
  - split; intros m; reflexivity.
  - reflexivity.
  - exists c. split; [exact Hc|].
    rewrite (Hkeep "Authorization"); [reflexivity | | | |].
    + intros k v Hk.
      change (Headers Scenario.more)
        with ({[ "X-Proxy" := "keycloak" ]} : gmap string string) in Hk.
      apply lookup_singleton_Some in Hk as [<- _]. discriminate.
    + apply (bool_decide_unpack _). vm_compute. exact I.
    + discriminate.
    + intros c' Hin _. apply list_elem_of_singleton in Hin as ->.
      discriminate.
Defined.

(** ** The logout handler *)

(** X18. Logout without a session answers 400 and does nothing else.
    With a session the cookies are cleared exactly once and before
    anything else, whatever happens to the revocation afterwards; the
    request and the identity in the context are left alone, and the
    removal of the store entry is started exactly when a store is in
    use. *)
Theorem logout_clears_cookies (r : oauthProxy) (more : ConfigMore)
    (w : World) (lib : Library) (Do : Revocation -> result Z)
    (cx : Context) :
  (forall e,
     getIdentity w (request cx) = Err e ->
     logoutHandler r more w lib Do cx = (NoContent StatusBadRequest cx, [])) /\
  (forall u,
     getIdentity w (request cx) = Ok u ->
     trace (logoutHandler r more w lib Do cx).1 =
       (trace cx ++ [EvClearAllCookies])%list /\
     request (logoutHandler r more w lib Do cx).1 = request cx /\
     user (logoutHandler r more w lib Do cx).1 = user cx /\
     (GoDeleteRefreshToken (token u) ∈ (logoutHandler r more w lib Do cx).2
      <-> useStore r = true) /\
     (forall key, GoDeleteRefreshToken key ∈
                    (logoutHandler r more w lib Do cx).2 ->
                  key = token u)).
Proof.
  unfold logoutHandler. split.
  - by intros e ->.
  - intros u ->.
    destruct (negb (defaultTo (RevocationEndpoint more)
                      (EndSessionEndpoint lib) =? "")%string);
      [destruct (OAuthClient w) as [client|];
       [destruct (NewRequest_error lib _);
        [|destruct (Do _)] |] |];
      destruct (negb (QueryParam (request cx) "redirect" =? "")%string);
      destruct (useStore r); simpl;
      (split; [reflexivity|]; split; [reflexivity|]; split; [reflexivity|];
       split;
       [ rewrite ?elem_of_app, ?elem_of_cons, ?elem_of_nil; split;
         [ intros H; decompose [or] H; try done; discriminate
         | intros H; try discriminate H; auto ]
       | intros key;
         rewrite ?elem_of_app, ?elem_of_cons, ?elem_of_nil;
         intros H; decompose [or] H; try done; congruence ]).
Qed.

(** X19. When a revocation endpoint is known (the configured one, else
    the end-session endpoint of the provider), an OAuth client exists and
    the request can be built, the logout handler sends exactly one POST to
    that endpoint: the body is refresh_token= followed by the refresh token
    when one can be retrieved and by the encoded access token otherwise,
    with the URL-escaped client id and secret as basic authentication. *)
Theorem logout_revocation_request (r : oauthProxy) (more : ConfigMore)
    (w : World) (lib : Library) (Do : Revocation -> result Z)
    (cx : Context) (u : userContext) (client : Client) :
  getIdentity w (request cx) = Ok u ->
  defaultTo (RevocationEndpoint more) (EndSessionEndpoint lib) <> "" ->
  OAuthClient w = Ok client ->
  NewRequest_error lib
    (defaultTo (RevocationEndpoint more) (EndSessionEndpoint lib)) = None ->
  (logoutHandler r more w lib Do cx).2 =
    ((if useStore r then [GoDeleteRefreshToken (token u)] else []) ++
     [PostRevocation
        {| revocationURL :=
             if String.eqb (RevocationEndpoint more) ""
             then EndSessionEndpoint lib else RevocationEndpoint more;
           revocationBody :=
             "refresh_token=" +:+
             match retrieveRefreshToken r w (request cx) u with
             | Ok refresh => refresh
             | Err _ => Encode (token u)
             end;
           basicAuthUser := QueryEscape lib (ClientID (config r));
           basicAuthPassword := QueryEscape lib (ClientSecret more);
           contentType := "application/x-www-form-urlencoded" |}])%list.
Proof.
  intros Hid Hurl Hclient Hnew. unfold logoutHandler.
  apply String.eqb_neq in Hurl. rewrite Hid, Hurl, Hclient, Hnew. simpl.
  by destruct (Do _).
Qed.

Lemma logout_revocation_request_witness :
  (logoutHandler Sample.proxy Scenario.more (Sample.wValid Sample.parseJWTs)
     Scenario.lib (fun _ => Ok 204) (Sample.cx0 ∅ ∅)).2 =
    [PostRevocation
       {| revocationURL := "http://idp/logout";
          revocationBody := "refresh_token=opaque-refresh";
          basicAuthUser := "test";
          basicAuthPassword := "secret";
          contentType := "application/x-www-form-urlencoded" |}].
Proof.
  apply (logout_revocation_request Sample.proxy Scenario.more
           (Sample.wValid Sample.parseJWTs) Scenario.lib (fun _ => Ok 204)
           (Sample.cx0 ∅ ∅) Sample.rohith (OAuth2Client ""));
    try reflexivity; discriminate.
Defined.

(** X20. What the logout handler answers once a session is found.  With
    no revocation endpoint, and after any answer of the endpoint whatever
    its status code, it redirects to the redirect parameter when one is
    given and answers 200 otherwise; when the POST itself fails it returns
    without writing a response; and when no OAuth client or no request can
    be made it answers 500.  In the last two cases the cookies are cleared
    all the same. *)
Theorem logout_response (r : oauthProxy) (more : ConfigMore)
    (w : World) (lib : Library) (Do : Revocation -> result Z)
    (cx : Context) (u : userContext) :
  getIdentity w (request cx) = Ok u ->
  let url := defaultTo (RevocationEndpoint more) (EndSessionEndpoint lib) in
  let finished :=
    if String.eqb (QueryParam (request cx) "redirect") ""
    then NoContent StatusOK (clearAllCookies cx)
    else redirectToURL (QueryParam (request cx) "redirect")
           (clearAllCookies cx) in
  (url = "" ->
   logoutHandler r more w lib Do cx =
     (finished,
      if useStore r then [GoDeleteRefreshToken (token u)] else [])) /\
  (url <> "" ->
   (forall e, OAuthClient w = Err e ->
      (logoutHandler r more w lib Do cx).1 =
        NoContent StatusInternalServerError (clearAllCookies cx)) /\
   (forall client e,
      OAuthClient w = Ok client -> NewRequest_error lib url = Some e ->
      (logoutHandler r more w lib Do cx).1 =
        NoContent StatusInternalServerError (clearAllCookies cx)) /\
   (forall client,
      OAuthClient w = Ok client -> NewRequest_error lib url = None ->
      exists rq,
        PostRevocation rq ∈ (logoutHandler r more w lib Do cx).2 /\
        (forall e, Do rq = Err e ->
           (logoutHandler r more w lib Do cx).1 = clearAllCookies cx) /\
        (forall status, Do rq = Ok status ->
           (logoutHandler r more w lib Do cx).1 = finished))).
Proof.
  intros Hid url finished. subst url finished. unfold logoutHandler.
  rewrite Hid. split.
  - intros ->. simpl.
    by destruct (QueryParam (request cx) "redirect" =? "")%string.
  - intros Hurl. apply String.eqb_neq in Hurl. rewrite Hurl. simpl.
    split; [|split].
    + by intros e ->.
    + by intros client e -> ->.
    + intros client -> ->. eexists. split.
      * destruct (Do _); simpl; apply elem_of_app; right;
          apply list_elem_of_singleton; reflexivity.
      * split.
        -- by intros e ->.
        -- intros status ->. simpl.
           by destruct (QueryParam (request cx) "redirect" =? "")%string.
Qed.

Lemma logout_response_witness :
  (logoutHandler Sample.proxy Scenario.more (Sample.wValid Sample.parseJWTs)
     Scenario.lib (fun _ => Ok 500) (Sample.cx0 ∅ ∅)).1 =
    NoContent StatusOK (clearAllCookies (Sample.cx0 ∅ ∅)).
Proof.
  destruct (logout_response Sample.proxy Scenario.more
              (Sample.wValid Sample.parseJWTs) Scenario.lib
              (fun _ => Ok 500) (Sample.cx0 ∅ ∅) Sample.rohith)
    as [_ Hurl]; [reflexivity|].
  destruct Hurl as (_ & _ & Hpost); [discriminate|].
  destruct (Hpost (OAuth2Client "")) as (rq & _ & _ & Hanswer);
    [reflexivity | reflexivity |].
  apply (Hanswer 500). reflexivity.
Defined.

Lemma logout_clears_cookies_witness :
  trace (logoutHandler Scenario.proxyStore Scenario.more
           (Sample.wValid Sample.parseJWTs) Scenario.lib
           (fun _ => Err (ErrorString "connection refused"))
           (Sample.cx0 ∅ ∅)).1 = [EvClearAllCookies] /\
  logoutHandler Sample.proxy Scenario.more Scenario.wNoSession Scenario.lib
    (fun _ => Ok 204) (Sample.cx0 ∅ ∅) =
    (NoContent StatusBadRequest (Sample.cx0 ∅ ∅), []).
Proof.
  split.
  - apply (logout_clears_cookies Scenario.proxyStore Scenario.more
             (Sample.wValid Sample.parseJWTs) Scenario.lib
             (fun _ => Err (ErrorString "connection refused"))
             (Sample.cx0 ∅ ∅)) with Sample.rohith.
    reflexivity.
  - apply (logout_clears_cookies Sample.proxy Scenario.more
             Scenario.wNoSession Scenario.lib (fun _ => Ok 204)
             (Sample.cx0 ∅ ∅))
      with (ErrorString "authentication session not found").
    reflexivity.
Defined.

(** ** The authentication middleware without a usable refresh token *)

(** X21. An expired token is not refreshed when refresh tokens are
    switched off or no refresh token can be retrieved: the middleware
    answers through redirectToAuthorization on the context that only had
    the identity attached, so no exchange is attempted and no cookie is
    touched, and the next handler is not called. *)
Theorem expired_without_refresh (r : oauthProxy) (w : World)
    (resource : Resource) (cx : Context) (u : userContext) :
  getIdentity w (request cx) = Ok u ->
  SkipTokenVerification (config r) = false ->
  verifyToken w (token u) = Some ErrAccessTokenExpired ->
  EnableRefreshTokens (config r) = false \/
  (exists e, retrieveRefreshToken r w (request cx) u = Err e) ->
  (forall next,
     authenticationMiddleware r w resource next cx =
       Returned (redirectToAuthorization r (set_user cx u))) /\
  trace (set_user cx u) = trace cx /\
  response (set_user cx u) = response cx.
Proof.
  intros Hid Hskip Hver Hno. split; [|done].
  intros next. unfold authenticationMiddleware.
  rewrite Hid, Hskip, Hver. simpl.
  destruct Hno as [-> | [e Hret]]; [done|].
  destruct (EnableRefreshTokens (config r)); [|done]. simpl.
  by rewrite Hret.
Qed.

Lemma expired_without_refresh_witness :
  authenticationMiddleware Scenario.proxyNoRefresh Sample.wRefresh
    Sample.anyRole Returned (Sample.cx0 ∅ ∅) =
  Returned (redirectToAuthorization Scenario.proxyNoRefresh
              (set_user (Sample.cx0 ∅ ∅) Sample.rohith)).
Proof.
  apply (expired_without_refresh Scenario.proxyNoRefresh Sample.wRefresh
           Sample.anyRole (Sample.cx0 ∅ ∅) Sample.rohith);
    try reflexivity.
  by left.
Defined.
